(** * Sladrehank: the SSB unemployment dashboard ([app.py])

    A shallow embedding of the two functions of [app.py] that carry logic,
    [fetch_ssb_data] (one POST to the SSB table API, then the unpivot of the
    JSON-stat body into rows) and [get_ai_insight] (the Gemini wrapper),
    and of the script around them (the sidebar's key resolution, the five
    views and the page), followed by the properties the specification states
    about them and further properties read off the code.

    Conventions of the embedding.
    - Python values that reach the table cells are [pyval]s; a JSON object
      whose iteration order matters ([index], [label]) is an insertion-ordered
      association list [pydict]; a JSON object used only by key
      ([dimension], [gender_map], [st.session_state]) is a [gmap].
    - A Python statement that may raise is a computation in [result]; the
      two [try]/[except] blocks are written with [try_except] over [io],
      which also records the outward effects (HTTP request, [st.error],
      Gemini calls) as a trace of [event]s.
    - The outside world (what the SSB endpoint answers, what Gemini answers,
      how pandas prints a frame) is a [Section] variable.
    - The cache that [@st.cache_data] puts around [fetch_ssb_data] is a cell
      passed from call to call; [fetch_ssb_data] is the body of the function,
      [fetch_ssb_data_cached] a call of it.  Whether Streamlit still holds
      the entry at a call is an input of the call. *)

From Stdlib Require Import ZArith String Ascii Lia.
From stdpp Require Import base option list strings gmap.

Open Scope string_scope.
Open Scope list_scope.

(* ===================================================================== *)
(** * Python values, exceptions and the [result] monad                    *)
(* ===================================================================== *)

(** Scalar JSON values as the [json] module hands them to Python:
    [null], an integer, a string. *)
Inductive pyval : Type :=
  | PNone
  | PInt (z : Z)
  | PStr (s : string).

#[global] Instance pyval_eq_dec : EqDecision pyval.
Proof. solve_decision. Defined.

(** The exception classes that occur on the paths modelled here. *)
Inductive exn_kind : Type :=
  | KeyError
  | IndexError
  | TypeError
  | ValueError
  | OverflowError
  | ConnectionError      (* requests.exceptions.RequestException, transport *)
  | HTTPError            (* raised by [raise_for_status] *)
  | JSONDecodeError      (* raised by [response.json()] *)
  | GenaiError.          (* anything raised inside the Gemini client *)

#[global] Instance exn_kind_eq_dec : EqDecision exn_kind.
Proof. solve_decision. Defined.

(** An exception value: its class and the text [str(e)] gives. *)
Record exn : Type := Exn { exn_kind_of : exn_kind; exn_msg : string }.

#[global] Instance exn_eq_dec : EqDecision exn.
Proof. solve_decision. Defined.

(** [str(e)] *)
Definition str (e : exn) : string := exn_msg e.

Inductive result (A : Type) : Type :=
  | Ok (a : A)
  | Raise (e : exn).
Arguments Ok {A} a.
Arguments Raise {A} e.

#[global] Instance result_ret : MRet result := fun A a => Ok a.
#[global] Instance result_bind : MBind result := fun A B f m =>
  match m with
  | Ok a => f a
  | Raise e => Raise e
  end.
#[global] Instance result_fmap : FMap result := fun A B f m =>
  match m with
  | Ok a => Ok (f a)
  | Raise e => Raise e
  end.


(** [repr] of a [str] key as [KeyError] prints it (keys here hold no quote). *)
Definition repr_key (k : string) : string := "'" +:+ k +:+ "'".

Definition key_error {A} (k : string) : result A :=
  Raise (Exn KeyError (repr_key k)).

(* ===================================================================== *)
(** * Dictionaries and lists                                              *)
(* ===================================================================== *)

(** An insertion-ordered [dict] with [str] keys. *)
Definition pydict (V : Type) : Type := list (string * V).

(** [list(d.keys())] *)
Definition keys {V} (d : pydict V) : list string := fst <$> d.

Fixpoint dict_lookup {V} (d : pydict V) (k : string) : option V :=
  match d with
  | [] => None
  | (k', v) :: d' => if String.eqb k' k then Some v else dict_lookup d' k
  end.

(** [d.get(k, dflt)] *)
Definition dict_get {V} (d : pydict V) (k : string) (dflt : V) : V :=
  default dflt (dict_lookup d k).

(** [d[k]] where the key [k] of a JSON object may be absent: the object's
    field is an [option] and subscripting it raises [KeyError] on [None]. *)
Definition getitem_field {V} (field : option V) (k : string) : result V :=
  match field with
  | Some v => Ok v
  | None => key_error k
  end.

(** [d[k]] on a [dict] used as a map. *)
Definition getitem_map {V} (d : gmap string V) (k : string) : result V :=
  getitem_field (d !! k) k.

(** [l[i]] for a non-negative [i]: Python raises [IndexError] past the end. *)
Definition getitem_list {V} (l : list V) (i : nat) : result V :=
  match l !! i with
  | Some v => Ok v
  | None => Raise (Exn IndexError "list index out of range")
  end.

(** [for i, x in enumerate(xs): s = body(i, x, s)], stopping at the first
    exception.  [i0] is the number of the first element. *)
Fixpoint for_enumerate {A St} (body : nat -> A -> St -> result St)
    (i0 : nat) (xs : list A) (s : St) : result St :=
  match xs with
  | [] => Ok s
  | x :: xs' => s' ← body i0 x s; for_enumerate body (S i0) xs' s'
  end.

(** [mapM] in [result]: convert every element, the first failure wins. *)
Fixpoint map_result {A B} (f : A -> result B) (l : list A) : result (list B) :=
  match l with
  | [] => Ok []
  | x :: l' => y ← f x; ys ← map_result f l'; Ok (y :: ys)
  end.

(* ===================================================================== *)
(** * [int(s)] and the [int64] cast of [astype(int)]                      *)
(* ===================================================================== *)

(** The conversion is modelled on ASCII texts and on integers within
    [int64], which is what the year labels of the API are.  On that domain
    [Ok y] below is the integer the code computes.  Outside it the code may
    succeed where the model fails: Python's [int] also skips white space
    beyond ASCII (U+0085, U+00A0, ...) and reads the decimal digits of other
    scripts, and pandas reads a column of integers with one above
    [int64_max] as [uint64] and wraps it around.  So a [Raise] of the model
    for such a label is no statement about the code; what is proved of the
    year of a row below is proved for the labels the model converts. *)

(** ASCII white space as [int()] skips it at both ends of a string. *)
Definition is_space (a : ascii) : bool :=
  let n := nat_of_ascii a in
  ((9 <=? n)%nat && (n <=? 13)%nat) || ((28 <=? n)%nat && (n <=? 32)%nat).

Fixpoint lstrip (s : string) : string :=
  match s with
  | EmptyString => EmptyString
  | String a s' => if is_space a then lstrip s' else s
  end.

Fixpoint rstrip (s : string) : string :=
  match s with
  | EmptyString => EmptyString
  | String a s' =>
      match rstrip s' with
      | EmptyString => if is_space a then EmptyString else String a EmptyString
      | t => String a t
      end
  end.

Definition strip (s : string) : string := rstrip (lstrip s).

Definition digit_of (a : ascii) : option Z :=
  let n := nat_of_ascii a in
  if (48 <=? n)%nat && (n <=? 57)%nat then Some (Z.of_nat (n - 48)) else None.

(** Decimal digits, a single underscore allowed between two digits.
    [after_digit] says whether the previous character was a digit. *)
Fixpoint parse_digits (acc : Z) (after_digit : bool) (s : string) : option Z :=
  match s with
  | EmptyString => if after_digit then Some acc else None
  | String a s' =>
      match digit_of a with
      | Some d => parse_digits (10 * acc + d)%Z true s'
      | None =>
          if Ascii.eqb a "_"%char && after_digit then parse_digits acc false s'
          else None
      end
  end.

(** [int(s)] for an ASCII [str]: optional white space, an optional sign,
    decimal digits. *)
Definition int_of_str (s : string) : option Z :=
  match strip s with
  | String "+"%char r => parse_digits 0%Z false r
  | String "-"%char r => Z.opp <$> parse_digits 0%Z false r
  | t => parse_digits 0%Z false t
  end.

Definition int64_min : Z := (- 2 ^ 63)%Z.
Definition int64_max : Z := (2 ^ 63 - 1)%Z.

(** The cast of a Python integer to [int64]: kept when it fits,
    [OverflowError] when a cell of an object column does not. *)
Definition to_int64 (z : Z) : result Z :=
  if (int64_min <=? z)%Z && (z <=? int64_max)%Z then Ok z
  else Raise (Exn OverflowError "Python int too large to convert to C long").

(** One cell of [Series.astype(int)] on a column of Python objects: [int(x)]
    followed by the cast to [int64].  For a [None] cell [int(None)] raises
    [TypeError]; when pandas has already turned a column of integers and
    [None] into floats the cast raises [ValueError] instead: either way the
    cast fails, and the model raises [TypeError]. *)
Definition astype_int_cell (v : pyval) : result Z :=
  match v with
  | PInt z => to_int64 z
  | PStr s =>
      match int_of_str s with
      | Some z => to_int64 z
      | None =>
          Raise (Exn ValueError
                   ("invalid literal for int() with base 10: " +:+ repr_key s))
      end
  | PNone =>
      Raise (Exn TypeError
               "int() argument must be a string, a bytes-like object or a real number, not 'NoneType'")
  end.

(** [Series.astype(int)] *)
Definition astype_int (col : list pyval) : result (list Z) :=
  map_result astype_int_cell col.

(* ===================================================================== *)
(** * The JSON-stat body and the rows of the table                        *)
(* ===================================================================== *)

(** [dimension[axis]["category"]]: [index] maps each category code to its
    position, in the order of the axis; [label], when the API sends it, maps
    each code to its text.  A key that may be absent is an [option]. *)
Record Category : Type := {
  index : option (pydict pyval);
  label : option (pydict pyval)
}.

Record Dimension : Type := { category : option Category }.

(** The parsed JSON body.  [value] is the flat array of counts, a number or
    [null] per cell; the counts of this table are numbers of persons, so a
    number is an integer here. *)
Record Body : Type := {
  dimension : option (gmap string Dimension);
  value : option (list (option Z))
}.

(** The [dict] appended to [records] by the innermost loop; the fields are
    the keys "År", "Kjønn", "Aldersgruppe" and "Antall Arbeidsledige". *)
Record RawRecord : Type := {
  raw_year : pyval;
  raw_gender : string;
  raw_age_group : pyval;
  raw_count : option Z
}.

#[global] Instance RawRecord_eq_dec : EqDecision RawRecord.
Proof. solve_decision. Defined.

(** A row of the returned frame: "År" is an [int64] after [astype(int)],
    "Antall Arbeidsledige" a number or missing (NaN) after [to_numeric]. *)
Record Record_ : Type := {
  year : Z;
  gender : string;
  age_group : pyval;
  count : option Z
}.

#[global] Instance Record_eq_dec : EqDecision Record_.
Proof. solve_decision. Defined.

Definition Table : Type := list Record_.

Definition col_year : string := "År".
Definition col_gender : string := "Kjønn".
Definition col_age_group : string := "Aldersgruppe".
Definition col_count : string := "Antall Arbeidsledige".

Definition record_keys : list string :=
  [col_year; col_gender; col_age_group; col_count].

(** A pandas frame: its column names and its rows. *)
Record DataFrame (Row : Type) : Type := {
  df_columns : list string;
  df_rows : list Row
}.
Arguments df_columns {Row} _.
Arguments df_rows {Row} _.

(** [pd.DataFrame(records)] for a list of dicts with the same keys: the
    columns are the keys of the dicts, so a frame built from the empty list
    has no column at all. *)
Definition pd_DataFrame (records : list RawRecord) : DataFrame RawRecord :=
  {| df_columns := match records with [] => [] | _ :: _ => record_keys end;
     df_rows := records |}.

(** [df[name]], the column as a list of cells; [KeyError] when the frame
    has no column of that name. *)
Definition df_getitem {Row C} (df : DataFrame Row) (name : string)
    (cell : Row -> C) : result (list C) :=
  if bool_decide (name ∈ df_columns df) then Ok (cell <$> df_rows df)
  else key_error name.

(** One cell of [pd.to_numeric(_, errors="coerce")]: a number stays, [None]
    becomes missing.  A column with a missing cell is a [float64] column, in
    which an integer is exact up to 2^53 in absolute value and rounded to the
    nearest float beyond; the counts of persons of this table are far below,
    and the model keeps every count as it is. *)
Definition to_numeric_coerce (v : option Z) : option Z := v.

(* ===================================================================== *)
(** * [fetch_ssb_data]: the body-to-table step                            *)
(* ===================================================================== *)

(** [gender_map = {"0": "Begge kjønn", "1": "Menn", "2": "Kvinner"}] *)
Definition gender_map : gmap string string :=
  {[ "0" := "Begge kjønn"; "1" := "Menn"; "2" := "Kvinner" ]}.

(** [dimensions[axis]["category"]["label"] if "label" in
    dimensions[axis]["category"] else dimensions[axis]["category"]["index"]] *)
Definition labels_or_index (dimensions : gmap string Dimension)
    (axis : string) : result (pydict pyval) :=
  d ← getitem_map dimensions axis;
  c ← getitem_field (category d) "category";
  match label c with
  | Some l => Ok l
  | None => getitem_field (index c) "index"
  end.

(** [list(dimensions[axis]["category"]["index"].keys())] *)
Definition index_keys (dimensions : gmap string Dimension)
    (axis : string) : result (list string) :=
  d ← getitem_map dimensions axis;
  c ← getitem_field (category d) "category";
  ix ← getitem_field (index c) "index";
  Ok (keys ix).

(** [values[pos] if pos < len(values) else None] *)
Definition read_value (values : list (option Z)) (pos : nat)
    : result (option Z) :=
  if (pos <? length values)%nat then getitem_list values pos else Ok None.

(** The three nested [for ... in enumerate(...)] loops, lines 75 to 96;
    the state threaded through them is the list [records]. *)
Definition build_records (time_labels age_labels : pydict pyval)
    (time_indices gender_indices age_indices : list string)
    (values : list (option Z)) : result (list RawRecord) :=
  for_enumerate (fun time_idx year_code records =>
    let year_label := dict_get time_labels year_code (PStr year_code) in
    for_enumerate (fun gender_idx gender_code records =>
      let gender_label := default gender_code (gender_map !! gender_code) in
      for_enumerate (fun age_idx age_code records =>
        let age_label := dict_get age_labels age_code (PStr age_code) in
        let pos := (time_idx * length gender_indices * length age_indices
                    + gender_idx * length age_indices
                    + age_idx)%nat in
        value ← read_value values pos;
        Ok (records ++ [ {| raw_year := year_label;
                            raw_gender := gender_label;
                            raw_age_group := age_label;
                            raw_count := value |} ])%list)
        0%nat age_indices records)
      0%nat gender_indices records)
    0%nat time_indices [].

Arguments build_records : simpl never.

(** Lines 99 to 105: the frame, [astype(int)] on "År", [to_numeric] on
    "Antall Arbeidsledige". *)
Definition to_table (records : list RawRecord) : result Table :=
  let df := pd_DataFrame records in
  year_col ← df_getitem df col_year raw_year;
  years ← astype_int year_col;
  count_col ← df_getitem df col_count raw_count;
  let counts := to_numeric_coerce <$> count_col in
  Ok (zip_with (fun r yc =>
                  {| year := yc.1; gender := raw_gender r;
                     age_group := raw_age_group r; count := yc.2 |})
               (df_rows df) (zip years counts)).

(** Lines 55 to 96 of the [try] block: from [dimensions = data["dimension"]]
    to the end of the loops.  [gender_labels] is read and never used, as in
    the source. *)
Definition collect_records (data : Body) : result (list RawRecord) :=
  dimensions ← getitem_field (dimension data) "dimension";
  values ← getitem_field (value data) "value";
  time_labels ← labels_or_index dimensions "Tid";
  gender_labels ← labels_or_index dimensions "Kjonn";
  age_labels ← labels_or_index dimensions "Alder";
  time_indices ← index_keys dimensions "Tid";
  gender_indices ← index_keys dimensions "Kjonn";
  age_indices ← index_keys dimensions "Alder";
  build_records time_labels age_labels
    time_indices gender_indices age_indices values.

(** The body-to-table step: everything in the [try] block after
    [data = response.json()]. *)
Definition transform (data : Body) : result Table :=
  records ← collect_records data;
  to_table records.

(** ** The three axes of a well-shaped body

    What [collect_records] reads from a body that has [dimension], [value]
    and, for each of "Tid", "Kjonn" and "Alder", a [category] with an
    [index]. *)
Record Axes : Type := {
  time_index : pydict pyval;
  time_label : option (pydict pyval);
  gender_index : pydict pyval;
  gender_label : option (pydict pyval);
  age_index : pydict pyval;
  age_label : option (pydict pyval);
  values : list (option Z)
}.

Definition category_of (dimensions : gmap string Dimension) (axis : string)
    : option Category :=
  d ← dimensions !! axis; category d.

Definition axes_of (data : Body) : option Axes :=
  dimensions ← dimension data;
  vals ← value data;
  ct ← category_of dimensions "Tid";
  cg ← category_of dimensions "Kjonn";
  ca ← category_of dimensions "Alder";
  it ← index ct;
  ig ← index cg;
  ia ← index ca;
  Some {| time_index := it; time_label := label ct;
          gender_index := ig; gender_label := label cg;
          age_index := ia; age_label := label ca;
          values := vals |}.

(** The mapping the loops look labels up in: [label] when present, else
    [index]. *)
Definition labels_used (ix : pydict pyval) (lb : option (pydict pyval))
    : pydict pyval :=
  default ix lb.

Definition n_time (ax : Axes) : nat := length (time_index ax).
Definition n_gender (ax : Axes) : nat := length (gender_index ax).
Definition n_age (ax : Axes) : nat := length (age_index ax).

(** [time_position * gender_count * age_count + gender_position * age_count
    + age_position] *)
Definition flat_pos (ax : Axes) (i j k : nat) : nat :=
  i * n_gender ax * n_age ax + j * n_age ax + k.

(** ** The loops as a list comprehension

    What the three loops compute, written as a comprehension; shown equal to
    [build_records] in [build_records_eq]. *)

(** The dict appended for the combination of the [i]-th time code [yc],
    the [j]-th gender code [gc] and the [k]-th age code [ac]. *)
Definition row_of (time_labels age_labels : pydict pyval) (G A : nat)
    (values : list (option Z))
    (i : nat) (yc : string) (j : nat) (gc : string) (k : nat) (ac : string)
    : RawRecord :=
  {| raw_year := dict_get time_labels yc (PStr yc);
     raw_gender := default gc (gender_map !! gc);
     raw_age_group := dict_get age_labels ac (PStr ac);
     raw_count := default None (values !! (i * G * A + j * A + k)%nat) |}.

Definition flat_records (time_labels age_labels : pydict pyval)
    (time_indices gender_indices age_indices : list string)
    (values : list (option Z)) : list RawRecord :=
  let G := length gender_indices in
  let A := length age_indices in
  concat (imap (fun i yc =>
    concat (imap (fun j gc =>
      imap (fun k ac => row_of time_labels age_labels G A values i yc j gc k ac)
           age_indices)
      gender_indices))
    time_indices).

(** The list [records] at the end of the loops, for a well-shaped body. *)
Definition records_of_axes (ax : Axes) : list RawRecord :=
  flat_records (labels_used (time_index ax) (time_label ax))
               (labels_used (age_index ax) (age_label ax))
               (keys (time_index ax)) (keys (gender_index ax))
               (keys (age_index ax)) (values ax).

(** The row of the returned frame made from a dict and its converted year. *)
Definition finish (r : RawRecord) (y : Z) : Record_ :=
  {| year := y; gender := raw_gender r; age_group := raw_age_group r;
     count := raw_count r |}.

(* ===================================================================== *)
(** * Effects: the trace of outward actions and [try]/[except]            *)
(* ===================================================================== *)

Inductive event : Type :=
  | HttpPost (url : string) (query : pydict (list string))
  | StError (msg : string)
  | GenaiConfigure (api_key : string)
  | GenerateContent (model prompt : string).

#[global] Instance event_eq_dec : EqDecision event.
Proof. solve_decision. Defined.

(** A computation that returns or raises, and the events it caused. *)
Inductive io (A : Type) : Type := Io (r : result A) (trace : list event).
Arguments Io {A} r trace.

Definition io_result {A} (m : io A) : result A := let 'Io r _ := m in r.
Definition io_trace {A} (m : io A) : list event := let 'Io _ t := m in t.

#[global] Instance io_ret : MRet io := fun A a => Io (Ok a) [].
#[global] Instance io_bind : MBind io := fun A B f m =>
  match m with
  | Io (Ok a) t => let 'Io r t' := f a in Io r (t ++ t')
  | Io (Raise e) t => Io (Raise e) t
  end.

Definition lift {A} (r : result A) : io A := Io r [].
Definition emit (ev : event) : io unit := Io (Ok tt) [ev].

(** [try: m  except Exception as e: h e] *)
Definition try_except {A} (m : io A) (h : exn -> io A) : io A :=
  match m with
  | Io (Ok a) t => Io (Ok a) t
  | Io (Raise e) t => let 'Io r t' := h e in Io r (t ++ t')
  end.

(** The events that reach the network. *)
Definition is_network (ev : event) : bool :=
  match ev with
  | HttpPost _ _ | GenerateContent _ _ => true
  | StError _ | GenaiConfigure _ => false
  end.

Definition is_post (ev : event) : bool :=
  match ev with HttpPost _ _ => true | _ => false end.

(* ===================================================================== *)
(** * [fetch_ssb_data]                                                    *)
(* ===================================================================== *)

(** The fixed text in front of [str(e)] in the [st.error] message. *)
Definition error_prefix : string := "Feil ved henting av data fra SSB: ".

Definition url : string := "https://data.ssb.no/api/v0/no/table/08517/".

(** [payload["query"]]: per dimension code, the selected values. *)
Definition payload_query : pydict (list string) :=
  [ ("Kjonn", ["0"; "1"; "2"]);
    ("Alder", ["15-74"; "15-24"; "25-54"; "55-74"]);
    ("ContentsCode", ["Personer"]);
    ("Tid", ["2015"; "2016"; "2017"; "2018"; "2019";
             "2020"; "2021"; "2022"; "2023"; "2024"]) ].

(** What [requests] hands back: the status, what [response.json()] does
    (the parsed body, or [JSONDecodeError]), and in [reason] the text
    [str(e)] of the [HTTPError] that [raise_for_status] raises for this
    response, which [requests] builds from the status, the reason phrase and
    the URL, as in "404 Client Error: Not Found for url: ...". *)
Record Response : Type := {
  status_code : Z;
  reason : string;
  json : result Body
}.

(** [response.raise_for_status()]: raises for 4XX and 5XX responses, with
    the text held in [reason]. *)
Definition raise_for_status (r : Response) : result unit :=
  if (400 <=? status_code r)%Z && (status_code r <? 600)%Z
  then Raise (Exn HTTPError (reason r))
  else Ok tt.

Section Fetch.
(** What [requests.post(url, json=payload)] does in this run: it returns a
    response or raises a transport error. *)
Variable post : result Response.

Definition requests_post : io Response :=
  _ ← emit (HttpPost url payload_query); lift post.

(** The body of [fetch_ssb_data], lines 32 to 109: what a call does when
    the cache of line 31 has no entry to answer it.  The decorated function
    is [fetch_ssb_data_cached] below. *)
Definition fetch_ssb_data : io (option Table) :=
  try_except
    (response ← requests_post;
     _ ← lift (raise_for_status response);
     data ← lift (json response);
     df ← lift (transform data);
     mret (Some df))
    (fun e =>
       _ ← emit (StError (error_prefix +:+ str e));
       mret None).
End Fetch.




(** The failures of one fetch and the exception each of them raises inside
    the [try] block. *)
Inductive fetch_failure : result Response -> exn -> Prop :=
  | transport_error (e : exn) :
      fetch_failure (Raise e) e
  | error_status (r : Response) :
      (400 <= status_code r < 600)%Z ->
      fetch_failure (Ok r) (Exn HTTPError (reason r))
  | malformed_json (r : Response) (e : exn) :
      ~ (400 <= status_code r < 600)%Z ->
      json r = Raise e ->
      fetch_failure (Ok r) e.


(* ===================================================================== *)
(** * [get_ai_insight]                                                    *)
(* ===================================================================== *)

Definition nl : string := String "010"%char EmptyString.

(** [needle in haystack] on [str]. *)
Fixpoint contains (needle haystack : string) : bool :=
  String.prefix needle haystack ||
  match haystack with
  | EmptyString => false
  | String _ rest => contains needle rest
  end.

(** Truth value of [st.session_state.get(key)]: [None] and [""] are false. *)
Definition truthy (v : option string) : bool :=
  match v with
  | None => false
  | Some s => negb (String.eqb s "")
  end.

Definition no_key_message : string :=
  "Vennligst oppgi en Google Gemini API-nøkkel for å generere innsikt.".

Section Insight.
(** The frame handed in, and [data.to_string(index=False)]. *)
Context {Data : Type}.
Variable to_string : Data -> result string.
(** [model.generate_content(prompt)] for a key and a model name: it raises,
    or returns a response whose [.text] raises or is a string. *)
Variable generate_content : string -> string -> string -> result (result string).

Definition get_ai_insight (session_state : gmap string string)
    (data : Data) (prompt_context : string) : io string :=
  try_except
    (if negb (truthy (session_state !! "GEMINI_API_KEY"))
     then mret no_key_message
     else
       api_key ← lift (getitem_map session_state "GEMINI_API_KEY");
       _ ← emit (GenaiConfigure api_key);
       let model := "gemini-1.5-flash" in
       table_text ← lift (to_string data);
       let full_prompt :=
         prompt_context +:+ nl +:+ nl +:+ "Data:" +:+ nl +:+ table_text in
       _ ← emit (GenerateContent model full_prompt);
       response ← lift (generate_content api_key model full_prompt);
       text ← lift response;
       mret text)
    (fun e =>
       let error_message := "Kunne ikke generere KI-innsikt: " +:+ str e in
       mret (if contains "API key not valid" (str e)
             then error_message +:+ nl
                  +:+ "Vennligst sjekk om API-nøkkelen er korrekt."
             else error_message)).
End Insight.

(* ===================================================================== *)
(** * Concrete bodies                                                     *)
(* ===================================================================== *)

Definition axis (ix : pydict pyval) (lb : option (pydict pyval)) : Dimension :=
  {| category := Some {| index := Some ix; label := lb |} |}.

(** The body that has exactly the three axes [ax] and its [value] array. *)
Definition body_of_axes (ax : Axes) : Body :=
  {| dimension :=
       Some {[ "Tid" := axis (time_index ax) (time_label ax);
               "Kjonn" := axis (gender_index ax) (gender_label ax);
               "Alder" := axis (age_index ax) (age_label ax) ]};
     value := Some (values ax) |}.

(** The mocked response of the end-to-end scenario: no [label] maps. *)
Definition scenario_axes : Axes :=
  {| time_index := [("2020", PInt 0); ("2021", PInt 1)]; time_label := None;
     gender_index := [("0", PInt 0)]; gender_label := None;
     age_index := [("15-74", PInt 0)]; age_label := None;
     values := [Some 100%Z; Some 120%Z] |}.
Definition scenario_body : Body := body_of_axes scenario_axes.

(** The same response as the API sends it, with its [label] maps. *)
Definition labelled_axes : Axes :=
  {| time_index := [("2020", PInt 0); ("2021", PInt 1)];
     time_label := Some [("2020", PStr "2020"); ("2021", PStr "2021")];
     gender_index := [("0", PInt 0)];
     gender_label := Some [("0", PStr "Begge kjønn")];
     age_index := [("15-74", PInt 0)];
     age_label := Some [("15-74", PStr "15-74 år")];
     values := [Some 100%Z; Some 120%Z] |}.
Definition labelled_body : Body := body_of_axes labelled_axes.

(** The labelled response whose time axis has no category. *)
Definition empty_time_axes : Axes :=
  {| time_index := []; time_label := Some [];
     gender_index := [("0", PInt 0)];
     gender_label := Some [("0", PStr "Begge kjønn")];
     age_index := [("15-74", PInt 0)];
     age_label := Some [("15-74", PStr "15-74 år")];
     values := [] |}.
Definition empty_time_body : Body := body_of_axes empty_time_axes.

(** Two years, two genders and two age groups; [value] is [0, 1, ..., 7]. *)
Definition synthetic_axes : Axes :=
  {| time_index := [("2015", PInt 0); ("2016", PInt 1)];
     time_label := Some [("2015", PStr "2015"); ("2016", PStr "2016")];
     gender_index := [("1", PInt 0); ("2", PInt 1)];
     gender_label := Some [("1", PStr "Menn"); ("2", PStr "Kvinner")];
     age_index := [("15-24", PInt 0); ("25-54", PInt 1)];
     age_label := Some [("15-24", PStr "15-24 år"); ("25-54", PStr "25-54 år")];
     values := (fun n => Some (Z.of_nat n)) <$> seq 0 8 |}.
Definition synthetic_body : Body := body_of_axes synthetic_axes.

(** A gender axis that holds a code the fixed table lacks. *)
Definition unknown_gender_axes : Axes :=
  {| time_index := [("2020", PInt 0)];
     time_label := Some [("2020", PStr "2020")];
     gender_index := [("0", PInt 0); ("9", PInt 1)];
     gender_label := Some [("0", PStr "Begge kjønn"); ("9", PStr "Ukjent")];
     age_index := [("15-74", PInt 0)];
     age_label := Some [("15-74", PStr "15-74 år")];
     values := [Some 7%Z; Some 3%Z] |}.
Definition unknown_gender_body : Body := body_of_axes unknown_gender_axes.

(** The labelled response with a [value] array one cell short. *)
Definition short_value_axes : Axes :=
  {| time_index := [("2020", PInt 0); ("2021", PInt 1)];
     time_label := Some [("2020", PStr "2020"); ("2021", PStr "2021")];
     gender_index := [("0", PInt 0)];
     gender_label := Some [("0", PStr "Begge kjønn")];
     age_index := [("15-74", PInt 0)];
     age_label := Some [("15-74", PStr "15-74 år")];
     values := [Some 100%Z] |}.
Definition short_value_body : Body := body_of_axes short_value_axes.


(* ===================================================================== *)
(** * The page: credential, views, charts and insight panels              *)
(* ===================================================================== *)

(** What the script puts on the page, in order.  [Eff] wraps the events of
    [fetch_ssb_data] and [get_ai_insight]; the page's own [st.error] is
    [Eff (StError _)].  Containers ([st.columns], [st.expander],
    [st.spinner], the tab an element is in) do not change which elements are
    shown and are left out. *)
Inductive ui : Type :=
  | Eff (ev : event)
  | StSubheader (text : string)
  | StDataframe (df : Table)
  | PlotlyChart (title : string) (color : option string) (df : Table)
  | StMarkdown (text : string)
  | StCaption (text : string)
  | StInfo (text : string)
  | StWarning (text : string)
  | StTabs (names : list string)
  | SidebarTextInput (label_text : string)
  | SidebarSuccess (text : string)
  | SidebarWarning (text : string).

#[global] Instance ui_eq_dec : EqDecision ui.
Proof. solve_decision. Defined.

(** The script outside the two functions: it returns or raises, and shows
    elements on the way. *)
Inductive script (A : Type) : Type := Script (r : result A) (out : list ui).
Arguments Script {A} r out.

Definition script_result {A} (m : script A) : result A :=
  let 'Script r _ := m in r.
Definition script_out {A} (m : script A) : list ui :=
  let 'Script _ o := m in o.

#[global] Instance script_ret : MRet script := fun A a => Script (Ok a) [].
#[global] Instance script_bind : MBind script := fun A B f m =>
  match m with
  | Script (Ok a) o => let 'Script r o' := f a in Script r (o ++ o')
  | Script (Raise e) o => Script (Raise e) o
  end.

Definition show (u : ui) : script unit := Script (Ok tt) [u].
Definition lift_script {A} (r : result A) : script A := Script r [].
(** A call of one of the two functions from the script. *)
Definition run_io {A} (m : io A) : script A :=
  let 'Io r t := m in Script r (Eff <$> t).

(** ** The key, lines 143 to 157 *)

(** [os.getenv] first, the sidebar field second; [environ] is the process
    environment and [api_key_input] what the field returns.  The field is
    created with [key="api_key_input_sidebar"], so Streamlit keeps its text
    in the session under that name whenever the field is shown; the entry
    [GEMINI_API_KEY] is written by the script itself.  The result is the
    session as the rest of the script finds it, and what the sidebar shows. *)
Definition api_key_widget : string := "api_key_input_sidebar".

Definition resolve_api_key (environ : gmap string string)
    (api_key_input : string) (session_state : gmap string string)
    : gmap string string * list ui :=
  let api_key_from_env := environ !! "GEMINI_API_KEY" in
  let from_field :=
    let session_state := <[api_key_widget := api_key_input]> session_state in
    if negb (String.eqb api_key_input "")
    then (<["GEMINI_API_KEY" := api_key_input]> session_state,
          [SidebarTextInput "Skriv inn Google Gemini API-nøkkel";
           SidebarSuccess "✅ API-nøkkel mottatt"])
    else (session_state,
          [SidebarTextInput "Skriv inn Google Gemini API-nøkkel";
           SidebarWarning "⚠️ Ingen API-nøkkel funnet i .env-fil eller oppgitt. KI-innsikt vil ikke være tilgjengelig."])
  in
  match api_key_from_env with
  | Some k =>
      if negb (String.eqb k "")
      then (<["GEMINI_API_KEY" := k]> session_state,
            [SidebarSuccess "✅ API-nøkkel lastet fra .env-fil"])
      else from_field
  | None => from_field
  end.

(** ** Views: boolean masks over the table *)

(** One cell of [df[col] == text]: a label that is not a [str] is not equal
    to one. *)
Definition eq_str (v : pyval) (text : string) : bool :=
  match v with
  | PStr s => String.eqb s text
  | PInt _ | PNone => false
  end.

(** One cell of [df[col].isin(texts)]. *)
Definition isin (v : pyval) (texts : list string) : bool :=
  match v with
  | PStr s => bool_decide (s ∈ texts)
  | PInt _ | PNone => false
  end.

Definition age_groups : list string := ["15-24 år"; "25-54 år"; "55-74 år"].

(** Line 196. *)
Definition overall_mask (r : Record_) : bool :=
  String.eqb (gender r) "Begge kjønn" && eq_str (age_group r) "15-74 år".
(** Line 241. *)
Definition gender_mask (r : Record_) : bool :=
  bool_decide (gender r ∈ ["Menn"; "Kvinner"])
  && eq_str (age_group r) "15-74 år".
(** Line 289. *)
Definition age_mask (r : Record_) : bool :=
  String.eqb (gender r) "Begge kjønn" && isin (age_group r) age_groups.
(** Line 341. *)
Definition male_age_mask (r : Record_) : bool :=
  String.eqb (gender r) "Menn" && isin (age_group r) age_groups.
(** Line 386. *)
Definition female_age_mask (r : Record_) : bool :=
  String.eqb (gender r) "Kvinner" && isin (age_group r) age_groups.

(** [df[mask]] *)
Definition boolean_index (mask : Record_ -> bool) (df : Table) : Table :=
  List.filter mask df.

(** [df.empty] for a frame that has its columns. *)
Definition df_empty (df : Table) : bool :=
  match df with [] => true | _ :: _ => false end.

(** ** The frame handed to [get_ai_insight] *)

Record Frame : Type := {
  frame_columns : list string;
  frame_rows : list (list pyval)
}.

(** The cell of a row in a column; a missing count is [None]. *)
Definition record_cell (name : string) (r : Record_) : pyval :=
  if String.eqb name col_year then PInt (year r)
  else if String.eqb name col_gender then PStr (gender r)
  else if String.eqb name col_age_group then age_group r
  else match count r with Some z => PInt z | None => PNone end.

(** [df[[c1, c2, ...]]]: [KeyError] when a name is not a column. *)
Definition select_columns (cols : list string) (df : Table) : result Frame :=
  match List.find (fun c => negb (bool_decide (c ∈ record_keys))) cols with
  | Some c => Raise (Exn KeyError ("[" +:+ repr_key c +:+ "] not in index"))
  | None =>
      Ok {| frame_columns := cols;
            frame_rows := (fun r => (fun c => record_cell c r) <$> cols) <$> df |}
  end.

(** The rows not among [seen], each kept at its first occurrence. *)
Fixpoint drop_duplicates_rows (seen rows : list (list pyval))
    : list (list pyval) :=
  match rows with
  | [] => []
  | row :: rows' =>
      if bool_decide (row ∈ seen) then drop_duplicates_rows seen rows'
      else row :: drop_duplicates_rows (row :: seen) rows'
  end.

(** [frame.drop_duplicates()] *)
Definition drop_duplicates (f : Frame) : Frame :=
  {| frame_columns := frame_columns f;
     frame_rows := drop_duplicates_rows [] (frame_rows f) |}.

(** ** The prompts *)

Definition overall_prompt : string := "
                Analyser følgende data som viser total arbeidsledighet i Norge (alder 15-74 år) fra 2015 til 2024.
                Oppsummer hovedtrenden i 2-3 setninger. Nevn den overordnede retningen (økning/nedgang/stabilt) og eventuelle signifikante topper eller bunnpunkter i perioden.
                Hold svaret kortfattet og rettet mot et generelt publikum. Svar på norsk.
                ".

Definition gender_prompt : string := "
                Analyser arbeidsledighetstallene for menn og kvinner (alder 15-74 år) i Norge fra 2015 til 2024 basert på dataene nedenfor.
                Oppsummer de viktigste forskjellene i trender mellom kjønnene i 2-3 setninger.
                Var ledigheten generelt høyere for menn eller kvinner? Endret gapet seg merkbart over tid?
                Hold svaret kortfattet og rettet mot et generelt publikum. Svar på norsk.
                ".

Definition age_prompt : string := "
                Analyser arbeidsledighetsdataene for ulike aldersgrupper (15-24 år, 25-54 år, 55-74 år) for begge kjønn samlet i Norge fra 2015 til 2024.
                Oppsummer i 3-4 setninger: Hvilke aldersgrupper hadde generelt høyest og lavest arbeidsledighet?
                Hvilke grupper så de største relative endringene (f.eks. i prosent eller absolutte tall) i perioden?
                Er det noen spesielt markante mønstre eller topper/bunner for enkelte grupper?
                Hold svaret kortfattet og rettet mot et generelt publikum. Svar på norsk.
                ".

Definition male_age_prompt : string := "
                    Analyser arbeidsledighetsdataene for ulike aldersgrupper (15-24 år, 25-54 år, 55-74 år) spesifikt for menn i Norge fra 2015 til 2024.
                    Oppsummer i 2-3 setninger: Hvilke aldersgrupper hadde høyest og lavest arbeidsledighet blant menn?
                    Identifiser eventuelle signifikante trender eller endringer for menn i disse gruppene i perioden.
                    Hold svaret kortfattet og rettet mot et generelt publikum. Svar på norsk.
                    ".

Definition female_age_prompt : string := "
                    Analyser arbeidsledighetsdataene for ulike aldersgrupper (15-24 år, 25-54 år, 55-74 år) spesifikt for kvinner i Norge fra 2015 til 2024.
                    Oppsummer i 2-3 setninger: Hvilke aldersgrupper hadde høyest og lavest arbeidsledighet blant kvinner?
                    Identifiser eventuelle signifikante trender eller endringer for kvinner i disse gruppene i perioden.
                    Hold svaret kortfattet og rettet mot et generelt publikum. Svar på norsk.
                    ".

(** ** The page, lines 181 to 433 *)

Definition info_text : string :=
  "Skriv inn en Google Gemini API-nøkkel i sidefeltet for å generere KI-innsikt".

Section Page.
(** What the call [fetch_ssb_data()] of line 182 does, how pandas prints a
    frame, what Gemini answers, the session state after the sidebar, and the
    footer's [datetime.now().strftime('%Y-%m-%d %H:%M')]. *)
Variable fetch : io (option Table).
Variable to_string : Frame -> result string.
Variable generate_content : string -> string -> string -> result (result string).
Variable session_state : gmap string string.
Variable now : string.

(** The right-hand column of a view: the insight when a key is stored, the
    hint otherwise.  [data] is the frame expression of the call, evaluated
    only when the key is there. *)
Definition insight_panel (data : result Frame) (prompt : string)
    : script unit :=
  _ ← show (StMarkdown "### KI-innsikt");
  if truthy (session_state !! "GEMINI_API_KEY") then
    frame ← lift_script data;
    insight ← run_io (get_ai_insight to_string generate_content
                        session_state frame prompt);
    _ ← show (StMarkdown insight);
    show (StCaption "KI-generert oppsummering basert på SSB-data")
  else show (StInfo info_text).

(** One view: the chart and its panel, or the warning when the subset is
    empty. *)
Definition view (view_df : Table) (title : string) (color : option string)
    (data : result Frame) (prompt warning : string) : script unit :=
  if negb (df_empty view_df) then
    _ ← show (PlotlyChart title color view_df);
    insight_panel data prompt
  else show (StWarning warning).

(** The five views, lines 196 to 234, 241 to 282, 289 to 330, 341 to 381 and
    386 to 426: the mask, the chart, the frame sent with the prompt, the
    warning for an empty subset. *)
Definition overall_view (df : Table) : script unit :=
  let overall_df := boolean_index overall_mask df in
  view overall_df
    "Total Arbeidsledighet i Norge (Alder 15-74 år)" None
    (select_columns [col_year; col_count] overall_df)
    overall_prompt
    "Ingen data funnet for den generelle trenden (Begge kjønn, 15-74 år).".

Definition gender_view (df : Table) : script unit :=
  let gender_df := boolean_index gender_mask df in
  view gender_df
    "Arbeidsledighet etter Kjønn (Alder 15-74 år)" (Some col_gender)
    (drop_duplicates <$>
       select_columns [col_year; col_gender; col_count] gender_df)
    gender_prompt
    "Ingen data funnet for kjønnssammenligning (Menn/Kvinner, 15-74 år).".

Definition age_view (df : Table) : script unit :=
  let age_df := boolean_index age_mask df in
  view age_df
    "Arbeidsledighet etter Aldersgruppe (Begge Kjønn)" (Some col_age_group)
    (drop_duplicates <$>
       select_columns [col_year; col_age_group; col_count] age_df)
    age_prompt
    "Ingen data funnet for aldersgruppesammenligning (Begge kjønn, ulike aldersgrupper).".

Definition male_age_view (df : Table) : script unit :=
  let male_age_df := boolean_index male_age_mask df in
  view male_age_df
    "Arbeidsledighet Blant Menn etter Aldersgruppe" (Some col_age_group)
    (drop_duplicates <$>
       select_columns [col_year; col_age_group; col_count] male_age_df)
    male_age_prompt
    "Ingen data funnet for menn fordelt på aldersgrupper.".

Definition female_age_view (df : Table) : script unit :=
  let female_age_df := boolean_index female_age_mask df in
  view female_age_df
    "Arbeidsledighet Blant Kvinner etter Aldersgruppe" (Some col_age_group)
    (drop_duplicates <$>
       select_columns [col_year; col_age_group; col_count] female_age_df)
    female_age_prompt
    "Ingen data funnet for kvinner fordelt på aldersgrupper.".

(** The five views in the order of the page. *)
Definition views (df : Table) : list (script unit) :=
  [overall_view df; gender_view df; age_view df;
   male_age_view df; female_age_view df].

Definition load_error : string :=
  "Kunne ikke laste eller behandle data. Vennligst sjekk feilmeldingen over eller prøv igjen senere.".

Definition footer : string :=
  "Sladrehank SSB Innsiktsfunksjon for Arbeidsledighet • Data sist hentet: ".

Definition render_page_from : script unit :=
  df ← run_io fetch;
  match df with
  | Some df =>
      if negb (df_empty df) then
        _ ← show (StSubheader "Dataoversikt");
        _ ← show (StDataframe df);
        _ ← show (StSubheader "Generell Arbeidsledighetstrend (2015-2024)");
        _ ← overall_view df;
        _ ← show (StSubheader "Kjønnssammenligning (2015-2024)");
        _ ← gender_view df;
        _ ← show (StSubheader "Aldersgruppesammenligning (2015-2024)");
        _ ← age_view df;
        _ ← show (StSubheader "Aldersgruppetrender etter Kjønn");
        _ ← show (StTabs ["Menn"; "Kvinner"]);
        _ ← male_age_view df;
        _ ← female_age_view df;
        _ ← show (StMarkdown "---");
        show (StCaption (footer +:+ now))
      else show (Eff (StError load_error))
  | None => show (Eff (StError load_error))
  end.
End Page.

(** The page of a run in which the body of [fetch_ssb_data] is executed: the
    first run of the process, and every run that finds no entry in the
    cache. *)
Definition render_page (post : result Response)
    (to_string : Frame -> result string)
    (generate_content : string -> string -> string -> result (result string))
    (session_state : gmap string string) (now : string) : script unit :=
  render_page_from (fetch_ssb_data post) to_string generate_content
    session_state now.

(** ** The cache around [fetch_ssb_data], line 31 *)

(** [@st.cache_data(ttl=3600)]: the function has no parameter, so the cache
    holds at most one entry, the value the body returned last together with
    the [st] elements the body showed, which Streamlit shows again on a
    hit. *)
Record CacheEntry : Type :=
  { cached_value : option Table;
    cached_elements : list event }.

(** The calls of [st] among the events of a run; the request is an effect of
    the body and is not stored. *)
Definition is_element (ev : event) : bool :=
  match ev with
  | StError _ => true
  | _ => false
  end.

(** [held] tells whether Streamlit still holds the entry at this call: an
    entry is dropped once it is older than [ttl=3600] seconds, and when the
    cache is cleared. *)
Definition cache_lookup (held : bool) (cache : option CacheEntry)
    : option CacheEntry :=
  if held then cache else None.

Definition cache_hit (held : bool) (cache : option CacheEntry) : bool :=
  match cache_lookup held cache with
  | Some _ => true
  | None => false
  end.

(** One call of the decorated function: on a hit the stored value is
    returned and the stored elements are shown, the body does not run; on a
    miss the body runs, with [post] as the outcome of its request, and what
    it returned and showed is stored.  A run that raises stores nothing. *)
Definition fetch_ssb_data_cached (post : result Response) (held : bool)
    (cache : option CacheEntry) : io (option Table) * option CacheEntry :=
  match cache_lookup held cache with
  | Some entry =>
      (Io (Ok (cached_value entry)) (cached_elements entry), Some entry)
  | None =>
      let run := fetch_ssb_data post in
      (run,
       match io_result run with
       | Ok df =>
           Some {| cached_value := df;
                   cached_elements := List.filter is_element (io_trace run) |}
       | Raise _ => None
       end)
  end.

(** The cache of a process after a sequence of calls, each with the outcome
    its request would have and whether the entry is still held; the process
    starts with an empty cache. *)
Definition cache_after (calls : list (result Response * bool))
    : option CacheEntry :=
  foldl (fun cache call => (fetch_ssb_data_cached call.1 call.2 cache).2)
        None calls.

(** What an entry holds after a run of the body: a table that is not empty
    and no element, or [None] and the one error box. *)
Definition entry_agrees (entry : CacheEntry) : Prop :=
  (exists table,
      table <> [] /\
      entry = {| cached_value := Some table; cached_elements := [] |})
  \/
  (exists e,
      entry = {| cached_value := None;
                 cached_elements := [StError (error_prefix +:+ str e)] |}).

(** A run of the page with the cache it finds; the cache it leaves comes
    second. *)
Definition render_page_cached (post : result Response) (held : bool)
    (cache : option CacheEntry) (to_string : Frame -> result string)
    (generate_content : string -> string -> string -> result (result string))
    (session_state : gmap string string) (now : string)
    : script unit * option CacheEntry :=
  (render_page_from (fetch_ssb_data_cached post held cache).1 to_string
     generate_content session_state now,
   (fetch_ssb_data_cached post held cache).2).

(** ** Further concrete inputs *)

(** The labelled response without its [value] array. *)
Definition no_value_body : Body :=
  {| dimension := dimension labelled_body; value := None |}.

Definition ok_response (data : Body) : Response :=
  {| status_code := 200; reason := "OK"; json := Ok data |}.

(** An answer to the whole query for two years: three genders, four age
    groups, the labels as the API sends them, [value] = [0, ..., 23]. *)
Definition full_axes : Axes :=
  {| time_index := [("2015", PInt 0); ("2016", PInt 1)];
     time_label := Some [("2015", PStr "2015"); ("2016", PStr "2016")];
     gender_index := [("0", PInt 0); ("1", PInt 1); ("2", PInt 2)];
     gender_label :=
       Some [("0", PStr "Begge kjønn"); ("1", PStr "Menn"); ("2", PStr "Kvinner")];
     age_index := [("15-74", PInt 0); ("15-24", PInt 1);
                   ("25-54", PInt 2); ("55-74", PInt 3)];
     age_label :=
       Some [("15-74", PStr "15-74 år"); ("15-24", PStr "15-24 år");
             ("25-54", PStr "25-54 år"); ("55-74", PStr "55-74 år")];
     values := (fun n => Some (Z.of_nat n)) <$> seq 0 24 |}.
Definition full_body : Body := body_of_axes full_axes.

(** [ax] with other gender labels, with another [value] array. *)
Definition with_gender_label (ax : Axes) (gl : option (pydict pyval)) : Axes :=
  {| time_index := time_index ax; time_label := time_label ax;
     gender_index := gender_index ax; gender_label := gl;
     age_index := age_index ax; age_label := age_label ax;
     values := values ax |}.

Definition with_values (ax : Axes) (vals : list (option Z)) : Axes :=
  {| time_index := time_index ax; time_label := time_label ax;
     gender_index := gender_index ax; gender_label := gender_label ax;
     age_index := age_index ax; age_label := age_label ax;
     values := vals |}.

(** The tables of two of these bodies, computed. *)
Definition table_of (data : Body) : Table :=
  match transform data with Ok table => table | Raise _ => [] end.

Definition synthetic_table : Table := Eval vm_compute in table_of synthetic_body.
Definition full_table : Table := Eval vm_compute in table_of full_body.

(** ** Reading the page *)

Definition is_gemini (u : ui) : bool :=
  match u with
  | Eff (GenaiConfigure _) | Eff (GenerateContent _ _) => true
  | _ => false
  end.

Definition is_prompt (u : ui) : bool :=
  match u with Eff (GenerateContent _ _) => true | _ => false end.

Definition is_chart (u : ui) : bool :=
  match u with PlotlyChart _ _ _ => true | _ => false end.

Definition is_info (u : ui) : bool :=
  match u with StInfo _ => true | _ => false end.

Definition is_warning (u : ui) : bool :=
  match u with StWarning _ => true | _ => false end.

(** The page with what Gemini contributes taken out: its events are dropped
    and every Markdown text is blanked. *)
Definition erase_insight (u : ui) : option ui :=
  match u with
  | Eff (GenaiConfigure _) | Eff (GenerateContent _ _) => None
  | StMarkdown _ => Some (StMarkdown "")
  | _ => Some u
  end.

(** [needle in s] *)
Definition substring_of (needle s : string) : Prop :=
  exists pre post, s = pre +:+ needle +:+ post.

(** The text [get_ai_insight] returns for the exception [e]. *)
Definition reports (e : exn) (text : string) : Prop :=
  (substring_of "API key not valid" (str e) ->
   text = "Kunne ikke generere KI-innsikt: " +:+ str e +:+ nl
          +:+ "Vennligst sjekk om API-nøkkelen er korrekt.") /\
  (~ substring_of "API key not valid" (str e) ->
   text = "Kunne ikke generere KI-innsikt: " +:+ str e).

(** The gender and age labels the rows carry, in the order of the axes. *)
Definition gender_texts (ax : Axes) : list string :=
  (fun gc => default gc (gender_map !! gc)) <$> keys (gender_index ax).

Definition age_texts (ax : Axes) : list pyval :=
  (fun ac => dict_get (labels_used (age_index ax) (age_label ax)) ac (PStr ac))
    <$> keys (age_index ax).

Definition all_age_groups : list string :=
  ["15-74 år"; "15-24 år"; "25-54 år"; "55-74 år"].

(** Per view: at most one prompt, sent only beside a chart; a chart or a
    warning; without a key no Gemini event and the hint beside every chart;
    every configuration carries the stored key. *)
Definition view_facts (session_state : gmap string string)
    (v : script unit) : Prop :=
  let o := script_out v in
  (length (List.filter is_prompt o) <= length (List.filter is_chart o))%nat /\
  (length (List.filter is_chart o) <= 1)%nat /\
  (length (List.filter is_chart o) + length (List.filter is_warning o) = 1)%nat /\
  (truthy (session_state !! "GEMINI_API_KEY") = false ->
   List.filter is_gemini o = [] /\
   length (List.filter is_info o) = length (List.filter is_chart o)) /\
  (forall key, Eff (GenaiConfigure key) ∈ o ->
               session_state !! "GEMINI_API_KEY" = Some key /\ key <> "").


(** ** Missing keys *)

Definition axis_names : list string := ["Tid"; "Kjonn"; "Alder"].

(** The body lacks the key [k] on a path the step reads: [dimension] or
    [value] at the top, one of the three axes under [dimension], the
    [category] of an axis, or the [index] of a category. *)
Inductive lacks : Body -> string -> Prop :=
  | lacks_dimension (data : Body) :
      dimension data = None -> lacks data "dimension"
  | lacks_value (data : Body) :
      value data = None -> lacks data "value"
  | lacks_axis (data : Body) (dims : gmap string Dimension) (axis : string) :
      dimension data = Some dims -> axis ∈ axis_names ->
      dims !! axis = None -> lacks data axis
  | lacks_category (data : Body) (dims : gmap string Dimension)
      (axis : string) (d : Dimension) :
      dimension data = Some dims -> axis ∈ axis_names ->
      dims !! axis = Some d -> category d = None -> lacks data "category"
  | lacks_index (data : Body) (dims : gmap string Dimension)
      (axis : string) (d : Dimension) (c : Category) :
      dimension data = Some dims -> axis ∈ axis_names ->
      dims !! axis = Some d -> category d = Some c -> index c = None ->
      lacks data "index".

(* ===================================================================== *)
(** * The loops as a list comprehension                                   *)
(* ===================================================================== *)

Section Loops.
Context {A B : Type}.

(** A loop whose body only appends to the state computes a concatenation. *)
Lemma for_enumerate_extend (g : nat -> A -> list B)
    (body : nat -> A -> list B -> result (list B)) (xs : list A) :
  (forall i x s, body i x s = Ok (s ++ g i x)) ->
  forall i0 s,
    for_enumerate body i0 xs s
    = Ok (s ++ concat (imap (fun i => g (i0 + i)%nat) xs)).
Proof.
  intros Hbody. induction xs as [|x xs IH]; intros i0 s; simpl.
  - by rewrite app_nil_r.
  - rewrite Hbody. simpl. rewrite IH. f_equal.
    rewrite <- app_assoc, Nat.add_0_r. do 3 f_equal.
    apply imap_ext. intros i y _. simpl. f_equal. lia.
Qed.

Lemma concat_imap_singleton (f : nat -> A -> B) (xs : list A) :
  concat (imap (fun i x => [f i x]) xs) = imap f xs.
Proof.
  revert f. induction xs as [|x xs IH]; intros f; simpl; [done|].
  f_equal. apply (IH (f ∘ S)).
Qed.

Lemma length_concat_imap (g : nat -> A -> list B) (n : nat) (xs : list A) :
  (forall i x, length (g i x) = n) ->
  length (concat (imap g xs)) = (length xs * n)%nat.
Proof.
  revert g. induction xs as [|x xs IH]; intros g Hg; simpl; [done|].
  rewrite length_app, Hg, (IH (g ∘ S)); [done|]. intros i y. apply Hg.
Qed.

(** Blocks of equal length [n]: element [j] of block [i] sits at
    [i * n + j]. *)
Lemma lookup_concat_imap (g : nat -> A -> list B) (n : nat) (xs : list A) :
  (forall i x, length (g i x) = n) ->
  forall i j x, xs !! i = Some x -> (j < n)%nat ->
    concat (imap g xs) !! (i * n + j)%nat = g i x !! j.
Proof.
  revert g. induction xs as [|y xs IH]; intros g Hg i j x Hx Hj.
  - by rewrite lookup_nil in Hx.
  - destruct i as [|i]; simpl in *.
    + injection Hx as ->. rewrite lookup_app_l; [done|]. by rewrite Hg.
    + rewrite lookup_app_r; rewrite Hg; [|lia].
      replace (n + i * n + j - n)%nat with (i * n + j)%nat by lia.
      apply (IH (g ∘ S)); [|done..]. intros i' x'. apply Hg.
Qed.
End Loops.

Lemma read_value_eq (values : list (option Z)) (pos : nat) :
  read_value values pos = Ok (default None (values !! pos)).
Proof.
  unfold read_value, getitem_list.
  destruct (Nat.ltb_spec pos (length values)) as [Hlt|Hge].
  - destruct (lookup_lt_is_Some_2 values pos Hlt) as [v ->]. done.
  - by rewrite (lookup_ge_None_2 values pos).
Qed.

Lemma build_records_eq tl al ti gi ai values :
  build_records tl al ti gi ai values = Ok (flat_records tl al ti gi ai values).
Proof.
  unfold build_records, flat_records.
  rewrite (for_enumerate_extend (fun i yc =>
    concat (imap (fun j gc =>
      imap (fun k ac => row_of tl al (length gi) (length ai) values i yc j gc k ac)
           ai) gi))); [done|].
  intros i yc recs.
  rewrite (for_enumerate_extend (fun j gc =>
      imap (fun k ac => row_of tl al (length gi) (length ai) values i yc j gc k ac)
           ai)); [done|].
  intros j gc recs'.
  rewrite (for_enumerate_extend (fun k ac =>
      [row_of tl al (length gi) (length ai) values i yc j gc k ac])).
  - by rewrite concat_imap_singleton.
  - intros k ac recs''. by rewrite read_value_eq.
Qed.

Lemma length_flat_records tl al ti gi ai values :
  length (flat_records tl al ti gi ai values)
  = (length ti * length gi * length ai)%nat.
Proof.
  unfold flat_records.
  rewrite (length_concat_imap _ (length gi * length ai)); [lia|].
  intros i yc. apply length_concat_imap. intros j gc. apply length_imap.
Qed.

Lemma flat_records_lookup tl al ti gi ai values i j k yc gc ac :
  ti !! i = Some yc -> gi !! j = Some gc -> ai !! k = Some ac ->
  flat_records tl al ti gi ai values
    !! (i * length gi * length ai + j * length ai + k)%nat
  = Some (row_of tl al (length gi) (length ai) values i yc j gc k ac).
Proof.
  intros Hi Hj Hk. unfold flat_records.
  pose proof (lookup_lt_Some _ _ _ Hj) as Hjlt.
  pose proof (lookup_lt_Some _ _ _ Hk) as Hklt.
  replace (i * length gi * length ai + j * length ai + k)%nat
    with (i * (length gi * length ai) + (j * length ai + k))%nat by lia.
  rewrite (lookup_concat_imap _ (length gi * length ai) ti) with (x := yc);
    [|intros; apply length_concat_imap; intros; apply length_imap|done|nia].
  rewrite (lookup_concat_imap _ (length ai) gi) with (x := gc);
    [|intros; apply length_imap|done|done].
  by rewrite list_lookup_imap, Hk.
Qed.

(* ===================================================================== *)
(** * Reading the axes, building the frame                                *)
(* ===================================================================== *)

Lemma collect_records_axes (data : Body) (ax : Axes) :
  axes_of data = Some ax -> collect_records data = Ok (records_of_axes ax).
Proof.
  intros H. unfold axes_of, category_of in H.
  destruct data as [[dims|] [vals|]]; simplify_option_eq.
  unfold collect_records, labels_or_index, index_keys, getitem_map; simpl.
  repeat match goal with
         | E : _ !! _ = Some _ |- _ => rewrite E; clear E; simpl
         | E : category _ = Some _ |- _ => rewrite E; clear E; simpl
         | E : index _ = Some _ |- _ => rewrite E; simpl
         end.
  unfold records_of_axes, labels_used; simpl.
  repeat match goal with
         | |- context [label ?c] => destruct (label c); simpl
         end; by rewrite build_records_eq.
Qed.

Lemma axes_of_body_of_axes (ax : Axes) : axes_of (body_of_axes ax) = Some ax.
Proof. by destruct ax. Qed.

Lemma length_records_of_axes (ax : Axes) :
  length (records_of_axes ax) = (n_time ax * n_gender ax * n_age ax)%nat.
Proof.
  unfold records_of_axes, n_time, n_gender, n_age, keys.
  by rewrite length_flat_records, !length_fmap.
Qed.

Lemma records_of_axes_lookup (ax : Axes) i j k yc gc ac :
  keys (time_index ax) !! i = Some yc ->
  keys (gender_index ax) !! j = Some gc ->
  keys (age_index ax) !! k = Some ac ->
  records_of_axes ax !! flat_pos ax i j k
  = Some {| raw_year :=
              dict_get (labels_used (time_index ax) (time_label ax)) yc (PStr yc);
            raw_gender := default gc (gender_map !! gc);
            raw_age_group :=
              dict_get (labels_used (age_index ax) (age_label ax)) ac (PStr ac);
            raw_count := default None (values ax !! flat_pos ax i j k) |}.
Proof.
  intros Hi Hj Hk. unfold records_of_axes, flat_pos, n_gender, n_age.
  rewrite <- !(length_fmap fst). fold (keys (gender_index ax)) (keys (age_index ax)).
  by rewrite (flat_records_lookup _ _ _ _ _ _ i j k yc gc ac).
Qed.

(** Every exception of [collect_records] is a [KeyError]; it raises exactly
    when [axes_of] finds a key missing. *)
Lemma collect_records_Raise (data : Body) (e : exn) :
  collect_records data = Raise e -> exn_kind_of e = KeyError.
Proof.
  unfold collect_records, labels_or_index, index_keys, getitem_map,
    getitem_field, key_error.
  intros H. simpl in H.
  repeat match type of H with
         | build_records _ _ _ _ _ _ = _ => rewrite build_records_eq in H
         | context [match ?x with _ => _ end] => destruct x; simpl in H
         end;
    try discriminate; by injection H as <-.
Qed.

Lemma collect_records_Ok (data : Body) (records : list RawRecord) :
  collect_records data = Ok records ->
  exists ax, axes_of data = Some ax /\ records = records_of_axes ax.
Proof.
  intros H. destruct (axes_of data) as [ax|] eqn:Hax.
  - exists ax. split; [done|]. rewrite (collect_records_axes _ _ Hax) in H.
    by injection H.
  - exfalso. revert H Hax.
    unfold collect_records, axes_of, category_of, labels_or_index,
      index_keys, getitem_map, getitem_field, key_error.
    destruct data as [[dims|] [vals|]]; simpl; try discriminate.
    destruct (dims !! "Tid") as [[[[it lt]|]]|]; simpl; try discriminate;
    destruct it, lt; simpl; try discriminate;
    destruct (dims !! "Kjonn") as [[[[ig lg]|]]|]; simpl; try discriminate;
    destruct ig, lg; simpl; try discriminate;
    destruct (dims !! "Alder") as [[[[ia la]|]]|]; simpl; try discriminate;
    destruct ia, la; simpl; discriminate.
Qed.

Section MapResult.
Context {A B : Type} (f : A -> result B).

Lemma map_result_Ok (l : list A) (ys : list B) :
  map_result f l = Ok ys -> Forall2 (fun x y => f x = Ok y) l ys.
Proof.
  revert ys. induction l as [|x l IH]; intros ys; simpl.
  - intros [= <-]. constructor.
  - destruct (f x) as [y|e] eqn:Hx; simpl; [|discriminate].
    destruct (map_result f l) as [ys'|e]; simpl; [|discriminate].
    intros [= <-]. constructor; auto.
Qed.

Lemma map_result_Raise (l : list A) (e : exn) :
  map_result f l = Raise e -> exists x, x ∈ l /\ f x = Raise e.
Proof.
  induction l as [|x l IH]; simpl; [discriminate|].
  destruct (f x) as [y|e'] eqn:Hx; simpl.
  - destruct (map_result f l) as [ys'|e'']; simpl; [discriminate|].
    intros [= ->]. destruct IH as (x' & Hin & Hx'); [done|].
    exists x'. split; [by apply list_elem_of_further|done].
  - intros [= ->]. exists x. split; [apply list_elem_of_here|done].
Qed.

End MapResult.

Lemma df_getitem_nonempty {C} (records : list RawRecord) (name : string)
    (cell : RawRecord -> C) :
  records <> [] -> name ∈ record_keys ->
  df_getitem (pd_DataFrame records) name cell = Ok (cell <$> records).
Proof.
  intros Hne Hin. unfold df_getitem, pd_DataFrame; simpl.
  destruct records; [done|]. by rewrite bool_decide_eq_true_2.
Qed.

(** No frame comes out of an empty list of records: the frame has no "År"
    column to convert. *)
Lemma to_table_nil : to_table [] = key_error col_year.
Proof. reflexivity. Qed.

Lemma to_table_Ok (records : list RawRecord) (table : Table) :
  to_table records = Ok table ->
  Forall2 (fun r row => exists y,
             astype_int_cell (raw_year r) = Ok y /\ row = finish r y)
          records table.
Proof.
  intros H. destruct (decide (records = [])) as [->|Hne];
    [by rewrite to_table_nil in H|].
  unfold to_table in H.
  rewrite !df_getitem_nonempty in H by (done || (vm_compute; set_solver)).
  simpl in H. unfold astype_int in H.
  destruct (map_result astype_int_cell (raw_year <$> records))
    as [years|e] eqn:Hy; simpl in H; [|discriminate].
  injection H as <-. apply map_result_Ok in Hy.
  clear Hne. revert years Hy.
  induction records as [|r records IH]; intros years Hy; simpl in *.
  - inversion Hy; subst. constructor.
  - inversion Hy as [|? y ? ys Hr Hrest]; subst. simpl.
    constructor; [by exists y|]. by apply IH.
Qed.

(** Which exceptions the frame step raises. *)
Lemma to_table_Raise (records : list RawRecord) (e : exn) :
  to_table records = Raise e ->
  exn_kind_of e ∈ [KeyError; ValueError; TypeError; OverflowError].
Proof.
  intros H. destruct (decide (records = [])) as [->|Hne];
    [rewrite to_table_nil in H; injection H as <-; set_solver|].
  unfold to_table in H.
  rewrite !df_getitem_nonempty in H by (done || (vm_compute; set_solver)).
  simpl in H. unfold astype_int in H.
  destruct (map_result astype_int_cell (raw_year <$> records))
    as [years|e'] eqn:Hy; simpl in H; [discriminate|].
  injection H as ->. apply map_result_Raise in Hy as (v & _ & Hv).
  unfold astype_int_cell, to_int64 in Hv.
  repeat match type of Hv with
         | context [match ?x with _ => _ end] => destruct x
         | context [if ?x then _ else _] => destruct x
         end; try discriminate; injection Hv as <-; set_solver.
Qed.



(** The row of the returned frame for a combination, when a frame is
    returned. *)
Lemma transform_lookup (data : Body) (ax : Axes) (table : Table)
    (i j k : nat) (yc gc ac : string) :
  axes_of data = Some ax ->
  keys (time_index ax) !! i = Some yc ->
  keys (gender_index ax) !! j = Some gc ->
  keys (age_index ax) !! k = Some ac ->
  transform data = Ok table ->
  exists y,
    astype_int_cell
      (dict_get (labels_used (time_index ax) (time_label ax)) yc (PStr yc))
    = Ok y /\
    table !! flat_pos ax i j k
    = Some {| year := y;
              gender := default gc (gender_map !! gc);
              age_group :=
                dict_get (labels_used (age_index ax) (age_label ax)) ac (PStr ac);
              count := default None (values ax !! flat_pos ax i j k) |}.
Proof.
  intros Hax Hi Hj Hk Ht. unfold transform in Ht.
  rewrite (collect_records_axes _ _ Hax) in Ht. simpl in Ht.
  apply to_table_Ok in Ht.
  pose proof (records_of_axes_lookup ax i j k yc gc ac Hi Hj Hk) as Hr.
  destruct (Forall2_lookup_l _ _ _ _ _ Ht Hr) as (row & Hrow & y & Hy & ->).
  exists y. split; [exact Hy | exact Hrow].
Qed.

Lemma flat_pos_lt (ax : Axes) (i j k : nat) :
  (i < n_time ax)%nat -> (j < n_gender ax)%nat -> (k < n_age ax)%nat ->
  (flat_pos ax i j k < n_time ax * n_gender ax * n_age ax)%nat.
Proof.
  unfold flat_pos. intros Hi Hj Hk.
  set (T := n_time ax) in *. set (G := n_gender ax) in *.
  set (A := n_age ax) in *.
  assert (j * A + k < G * A)%nat by nia.
  assert (S i * (G * A) <= T * (G * A))%nat by (apply Nat.mul_le_mono_r; lia).
  lia.
Qed.

Lemma keys_lookup_lt {V} (d : pydict V) (i : nat) (c : string) :
  keys d !! i = Some c -> (i < length d)%nat.
Proof.
  intros H. apply lookup_lt_Some in H. unfold keys in H.
  by rewrite length_fmap in H.
Qed.

(* ===================================================================== *)
(** * Properties of the body-to-table step                                *)
(* ===================================================================== *)

(** C1. On the mocked response of the end-to-end scenario (no [label]
    maps, [value = [100, 120]]) the step returns two rows whose counts are
    100 and 120 and whose gender is "Begge kjønn", but whose year is the
    position of the year code in [index] (0 and 1, where the scenario expects
    2020 and 2021) and whose age group is the position 0 (where the scenario
    expects "15-74"): without a [label] map the loops look the codes up in
    [index] itself. *)
Theorem scenario_rows_carry_positions :
  transform scenario_body
  = Ok [ {| year := 0; gender := "Begge kjønn"; age_group := PInt 0;
            count := Some 100%Z |};
         {| year := 1; gender := "Begge kjønn"; age_group := PInt 0;
            count := Some 120%Z |} ].
Proof. vm_compute. reflexivity. Qed.

(** With the [label] maps the API sends, the same response gives the rows of
    the scenario. *)
Example labelled_scenario_rows :
  transform labelled_body
  = Ok [ {| year := 2020; gender := "Begge kjønn"; age_group := PStr "15-74 år";
            count := Some 100%Z |};
         {| year := 2021; gender := "Begge kjønn"; age_group := PStr "15-74 år";
            count := Some 120%Z |} ].
Proof. vm_compute. reflexivity. Qed.



Example synthetic_table_is_returned :
  exists table, transform synthetic_body = Ok table /\ length table = 8%nat.
Proof. eexists. split; vm_compute; reflexivity. Qed.

(** C3. Flattening is order-faithful: when [value] is [0, 1, ..., T*G*A-1],
    the dict appended for the [i]-th time code, the [j]-th gender code and the
    [k]-th age code is number [i*G*A + j*A + k] in [records], carries the
    labels of these three codes and the count [i*G*A + j*A + k]; so does the
    row at that place of every table the step returns. *)
Theorem flattening_is_order_faithful (data : Body) (ax : Axes)
    (i j k : nat) (yc gc ac : string) :
  axes_of data = Some ax ->
  values ax = (fun n => Some (Z.of_nat n))
                <$> seq 0 (n_time ax * n_gender ax * n_age ax) ->
  keys (time_index ax) !! i = Some yc ->
  keys (gender_index ax) !! j = Some gc ->
  keys (age_index ax) !! k = Some ac ->
  let pos := (i * n_gender ax * n_age ax + j * n_age ax + k)%nat in
  (exists records,
      collect_records data = Ok records /\
      records !! pos
      = Some {| raw_year :=
                  dict_get (labels_used (time_index ax) (time_label ax))
                           yc (PStr yc);
                raw_gender := default gc (gender_map !! gc);
                raw_age_group :=
                  dict_get (labels_used (age_index ax) (age_label ax))
                           ac (PStr ac);
                raw_count := Some (Z.of_nat pos) |}) /\
  (forall table,
      transform data = Ok table ->
      exists row,
        table !! pos = Some row /\
        gender row = default gc (gender_map !! gc) /\
        age_group row
        = dict_get (labels_used (age_index ax) (age_label ax)) ac (PStr ac) /\
        count row = Some (Z.of_nat pos)).
Proof.
  intros Hax Hvals Hi Hj Hk pos.
  assert (Hpos : values ax !! flat_pos ax i j k = Some (Some (Z.of_nat pos))).
  { rewrite Hvals, list_lookup_fmap.
    rewrite lookup_seq_lt; [done|].
    apply flat_pos_lt; [by eapply keys_lookup_lt..]. }
  split.
  - exists (records_of_axes ax). split; [by apply collect_records_axes|].
    fold (flat_pos ax i j k) in pos. subst pos.
    rewrite (records_of_axes_lookup ax i j k yc gc ac Hi Hj Hk).
    by rewrite Hpos.
  - intros table Ht.
    destruct (transform_lookup data ax table i j k yc gc ac Hax Hi Hj Hk Ht)
      as (y & _ & Hrow).
    eexists. split; [exact Hrow|]. simpl. by rewrite Hpos.
Qed.

Lemma synthetic_flattening :
  (exists records,
      collect_records synthetic_body = Ok records /\
      records !! 5%nat
      = Some {| raw_year := PStr "2016"; raw_gender := "Menn";
                raw_age_group := PStr "25-54 år";
                raw_count := Some 5%Z |}) /\
  (forall table,
      transform synthetic_body = Ok table ->
      exists row,
        table !! 5%nat = Some row /\ gender row = "Menn" /\
        age_group row = PStr "25-54 år" /\ count row = Some 5%Z).
Proof.
  apply (flattening_is_order_faithful synthetic_body synthetic_axes
           1 0 1 "2016" "1" "25-54"); vm_compute; reflexivity.
Defined.

(** ** Labels *)

Lemma gender_map_other (gc : string) :
  gc <> "0" -> gc <> "1" -> gc <> "2" -> gender_map !! gc = None.
Proof.
  intros H0 H1 H2. unfold gender_map.
  rewrite !lookup_insert_ne by done. by rewrite lookup_singleton_ne.
Qed.


(** C2, as stated, fails on the mocked response of the scenario, which has
    no [label] map on any axis: the dict appended for the codes "2020", "0"
    and "15-74" carries the year label 0 and the age label 0 (the positions
    held by [index]) and the gender label "Begge kjønn" (the fixed table),
    none of which is the code. *)
Lemma scenario_labels_are_not_the_codes :
  exists ax records r,
    axes_of scenario_body = Some ax /\
    time_label ax = None /\ gender_label ax = None /\ age_label ax = None /\
    keys (time_index ax) !! 0%nat = Some "2020" /\
    keys (gender_index ax) !! 0%nat = Some "0" /\
    keys (age_index ax) !! 0%nat = Some "15-74" /\
    collect_records scenario_body = Ok records /\
    records !! flat_pos ax 0 0 0 = Some r /\
    raw_year r = PInt 0 /\ raw_year r <> PStr "2020" /\
    raw_gender r = "Begge kjønn" /\ raw_gender r <> "0" /\
    raw_age_group r = PInt 0 /\ raw_age_group r <> PStr "15-74".
Proof.
  eexists _, _, _.
  split; [vm_compute; reflexivity|].
  repeat (split; [vm_compute; (reflexivity || discriminate)|]).
  vm_compute; discriminate.
Qed.

(** C2, amended.  On the time and age-group axes, when the body supplies a
    [label] map for the axis, the label of a code is the entry of that map
    for the code, and the code itself when the map has no entry for it.  On
    the gender axis the label is the entry of the fixed table for the codes
    "0", "1" and "2" and the code itself for any other code, whatever
    [label] map the body supplies. *)
Theorem label_falls_back_to_code (data : Body) (ax : Axes)
    (i j k : nat) (yc gc ac : string) :
  axes_of data = Some ax ->
  keys (time_index ax) !! i = Some yc ->
  keys (gender_index ax) !! j = Some gc ->
  keys (age_index ax) !! k = Some ac ->
  exists records r,
    collect_records data = Ok records /\
    records !! flat_pos ax i j k = Some r /\
    (forall lt, time_label ax = Some lt ->
                raw_year r = default (PStr yc) (dict_lookup lt yc)) /\
    (forall la, age_label ax = Some la ->
                raw_age_group r = default (PStr ac) (dict_lookup la ac)) /\
    raw_gender r = default gc (gender_map !! gc) /\
    (gc <> "0" -> gc <> "1" -> gc <> "2" -> raw_gender r = gc).
Proof.
  intros Hax Hi Hj Hk.
  eexists _, _. split; [by apply collect_records_axes|].
  split; [by apply records_of_axes_lookup|]. simpl.
  split; [by intros lt ->|]. split; [by intros la ->|]. split; [done|].
  intros. by rewrite gender_map_other.
Qed.

Lemma labelled_fallback :
  exists records r,
    collect_records labelled_body = Ok records /\
    records !! 1%nat = Some r /\
    (forall lt, Some [("2020", PStr "2020"); ("2021", PStr "2021")] = Some lt ->
                raw_year r = default (PStr "2021") (dict_lookup lt "2021")) /\
    (forall la, Some [("15-74", PStr "15-74 år")] = Some la ->
                raw_age_group r = default (PStr "15-74") (dict_lookup la "15-74")) /\
    raw_gender r = "Begge kjønn" /\
    ("0" <> "0" -> "0" <> "1" -> "0" <> "2" -> raw_gender r = "0").
Proof.
  apply (label_falls_back_to_code labelled_body labelled_axes
           1 0 0 "2021" "0" "15-74");
    vm_compute; reflexivity.
Defined.

(** On the labelled response the dict of the second year carries the
    labels of the body and of the fixed table. *)
Example labelled_second_record :
  collect_records labelled_body
  = Ok [ {| raw_year := PStr "2020"; raw_gender := "Begge kjønn";
            raw_age_group := PStr "15-74 år"; raw_count := Some 100%Z |};
         {| raw_year := PStr "2021"; raw_gender := "Begge kjønn";
            raw_age_group := PStr "15-74 år"; raw_count := Some 120%Z |} ].
Proof. vm_compute. reflexivity. Qed.

(** C10. A gender code outside "0", "1", "2" is its own label: the dict
    appended for it, and the row of every table the step returns, carry the
    raw code in the gender field. *)
Theorem unknown_gender_code_is_kept (data : Body) (ax : Axes)
    (i j k : nat) (yc gc ac : string) :
  axes_of data = Some ax ->
  keys (time_index ax) !! i = Some yc ->
  keys (gender_index ax) !! j = Some gc ->
  keys (age_index ax) !! k = Some ac ->
  gc <> "0" -> gc <> "1" -> gc <> "2" ->
  (exists records r,
      collect_records data = Ok records /\
      records !! flat_pos ax i j k = Some r /\ raw_gender r = gc) /\
  (forall table,
      transform data = Ok table ->
      exists row, table !! flat_pos ax i j k = Some row /\ gender row = gc).
Proof.
  intros Hax Hi Hj Hk H0 H1 H2. split.
  - eexists _, _. split; [by apply collect_records_axes|].
    split; [by apply records_of_axes_lookup|]. simpl.
    by rewrite gender_map_other.
  - intros table Ht.
    destruct (transform_lookup data ax table i j k yc gc ac Hax Hi Hj Hk Ht)
      as (y & _ & Hrow).
    eexists. split; [exact Hrow|]. simpl. by rewrite gender_map_other.
Qed.

Lemma unknown_gender_kept :
  (exists records r,
      collect_records unknown_gender_body = Ok records /\
      records !! 1%nat = Some r /\ raw_gender r = "9") /\
  (forall table,
      transform unknown_gender_body = Ok table ->
      exists row, table !! 1%nat = Some row /\ gender row = "9").
Proof.
  apply (unknown_gender_code_is_kept unknown_gender_body unknown_gender_axes
           0 1 0 "2020" "9" "15-74");
    (vm_compute; reflexivity) || discriminate.
Defined.

(** ** Missing counts and empty axes *)

(** Neither step of [transform] raises [IndexError], whatever the body. *)
Lemma transform_no_IndexError (data : Body) (e : exn) :
  transform data = Raise e -> exn_kind_of e <> IndexError.
Proof.
  unfold transform. intros H.
  destruct (collect_records data) as [records|e'] eqn:Hc; simpl in H.
  - apply to_table_Raise in H. intros Hk. rewrite Hk in H.
    repeat (apply elem_of_cons in H as [H|H]; [discriminate|]).
    by apply elem_of_nil in H.
  - injection H as ->. by rewrite (collect_records_Raise _ _ Hc).
Qed.

(** C6. The guarded read [values[pos] if pos < len(values) else None]
    returns for every position and every array, so the loops finish without
    an exception on every body that has the three axes, and no body makes the
    step raise [IndexError].  For a combination whose flat position is at or
    past the end of [value], the dict appended, and the row of every table
    the step returns, carry a missing count. *)
Theorem out_of_range_count_is_missing (data : Body) (ax : Axes)
    (i j k : nat) (yc gc ac : string) :
  axes_of data = Some ax ->
  keys (time_index ax) !! i = Some yc ->
  keys (gender_index ax) !! j = Some gc ->
  keys (age_index ax) !! k = Some ac ->
  (length (values ax) <= flat_pos ax i j k)%nat ->
  (forall vals pos, exists v, read_value vals pos = Ok v) /\
  (forall data' e, transform data' = Raise e -> exn_kind_of e <> IndexError) /\
  read_value (values ax) (flat_pos ax i j k) = Ok None /\
  (exists records r,
      collect_records data = Ok records /\
      records !! flat_pos ax i j k = Some r /\ raw_count r = None) /\
  (forall table,
      transform data = Ok table ->
      exists row, table !! flat_pos ax i j k = Some row /\ count row = None).
Proof.
  intros Hax Hi Hj Hk Hlen.
  assert (Hnone : values ax !! flat_pos ax i j k = None)
    by by apply lookup_ge_None_2.
  split; [intros vals pos; eexists; apply read_value_eq|].
  split; [apply transform_no_IndexError|].
  split; [by rewrite read_value_eq, Hnone|].
  split.
  - eexists _, _. split; [by apply collect_records_axes|].
    split; [by apply records_of_axes_lookup|]. simpl. by rewrite Hnone.
  - intros table Ht.
    destruct (transform_lookup data ax table i j k yc gc ac Hax Hi Hj Hk Ht)
      as (y & _ & Hrow).
    eexists. split; [exact Hrow|]. simpl. by rewrite Hnone.
Qed.

Lemma short_value_count_is_missing :
  (forall vals pos, exists v, read_value vals pos = Ok v) /\
  (forall data' e, transform data' = Raise e -> exn_kind_of e <> IndexError) /\
  read_value [Some 100%Z] 1 = Ok None /\
  (exists records r,
      collect_records short_value_body = Ok records /\
      records !! 1%nat = Some r /\ raw_count r = None) /\
  (forall table,
      transform short_value_body = Ok table ->
      exists row, table !! 1%nat = Some row /\ count row = None).
Proof.
  apply (out_of_range_count_is_missing short_value_body short_value_axes
           1 0 0 "2021" "0" "15-74");
    (vm_compute; reflexivity) || (vm_compute; lia).
Defined.

Example short_value_table :
  transform short_value_body
  = Ok [ {| year := 2020; gender := "Begge kjønn"; age_group := PStr "15-74 år";
            count := Some 100%Z |};
         {| year := 2021; gender := "Begge kjønn"; age_group := PStr "15-74 år";
            count := None |} ].
Proof. vm_compute. reflexivity. Qed.


(** ** Years and genders of the fixed query *)

Lemma dict_lookup_elem_of {V} (d : pydict V) (k : string) (v : V) :
  dict_lookup d k = Some v -> (k, v) ∈ d.
Proof.
  induction d as [|[k' v'] d IH]; simpl; [discriminate|].
  destruct (String.eqb_spec k' k) as [->|Hne].
  - intros [= ->]. apply list_elem_of_here.
  - intros H. apply list_elem_of_further. by apply IH.
Qed.







(** The labels of the labelled response are its year codes, so its years are
    those of the period. *)
Example labelled_years_in_range :
  (forall c, c ∈ keys (time_index labelled_axes) ->
             dict_get (labels_used (time_index labelled_axes)
                                   (time_label labelled_axes))
                      c (PStr c) = PStr c) /\
  exists table,
    transform labelled_body = Ok table /\
    Forall (fun row => (2015 <= year row <= 2024)%Z) table.
Proof.
  split.
  - intros c Hc. vm_compute in Hc.
    repeat (apply elem_of_cons in Hc as [->|Hc]; [reflexivity|]).
    by apply elem_of_nil in Hc.
  - eexists. split; [vm_compute; reflexivity|]. repeat constructor; simpl; lia.
Qed.

(** On the mocked response without [label] maps, which answers the query,
    the gender labels are those of the fixed table all the same. *)
Example scenario_genders :
  forall table,
    transform scenario_body = Ok table ->
    Forall (fun row => gender row ∈ ["Begge kjønn"; "Menn"; "Kvinner"]) table.
Proof.
  intros table Ht. vm_compute in Ht. injection Ht as <-.
  repeat constructor.
Qed.

(* ===================================================================== *)
(** * Properties of [fetch_ssb_data]                                      *)
(* ===================================================================== *)

(** Every run issues the one POST first, and no run raises: the result is a
    table or the "no data" signal [None]. *)
Lemma fetch_ssb_data_returns (post : result Response) :
  exists (df : option Table) (rest : list event),
    fetch_ssb_data post = Io (Ok df) (HttpPost url payload_query :: rest) /\
    filter is_post rest = [].
Proof.
  unfold fetch_ssb_data, requests_post, raise_for_status.
  destruct post as [r|e]; simpl; [|by eexists _, _].
  destruct (_ && _); simpl; [by eexists _, _|].
  destruct (json r) as [data|e]; simpl; [|by eexists _, _].
  destruct (transform data) as [df|e]; simpl; by eexists _, _.
Qed.

(** When the step raises, the fetch reports the exception and returns
    [None]. *)
Lemma fetch_ssb_data_transform_error (r : Response) (data : Body) (e : exn) :
  ~ (400 <= status_code r < 600)%Z ->
  json r = Ok data ->
  transform data = Raise e ->
  fetch_ssb_data (Ok r)
  = Io (Ok None) [HttpPost url payload_query; StError (error_prefix +:+ str e)].
Proof.
  intros Hst Hjson Ht. unfold fetch_ssb_data, requests_post, raise_for_status.
  simpl. destruct (_ && _) eqn:Hb; [lia|]. simpl. rewrite Hjson. simpl.
  by rewrite Ht.
Qed.

(** C5.  On a 200 response whose time axis has no category the loops append
    nothing, [pd.DataFrame([])] has no "År" column, [df["År"]] raises
    [KeyError], and the fetch takes the error path: it shows the error and
    returns [None], where an empty table without an error is expected. *)
Theorem empty_axis_takes_the_error_path :
  axes_of empty_time_body = Some empty_time_axes /\
  n_time empty_time_axes = 0%nat /\
  collect_records empty_time_body = Ok [] /\
  transform empty_time_body = Raise (Exn KeyError "'År'") /\
  fetch_ssb_data
    (Ok {| status_code := 200; reason := "OK"; json := Ok empty_time_body |})
  = Io (Ok None)
       [HttpPost url payload_query;
        StError "Feil ved henting av data fra SSB: 'År'"].
Proof. repeat split; vm_compute; reflexivity. Qed.

(** C9, as stated, fails for a status that is neither 2xx nor 4xx/5xx:
    [raise_for_status] lets a 300 response through, and when its body is the
    labelled response the fetch returns the table and shows no error. *)
Lemma status_300_is_not_an_error :
  let r := {| status_code := 300; reason := "Multiple Choices";
              json := Ok labelled_body |} in
  ~ (200 <= status_code r < 300)%Z /\
  raise_for_status r = Ok tt /\
  fetch_ssb_data (Ok r)
  = Io (Ok (Some [ {| year := 2020; gender := "Begge kjønn";
                      age_group := PStr "15-74 år"; count := Some 100%Z |};
                   {| year := 2021; gender := "Begge kjønn";
                      age_group := PStr "15-74 år"; count := Some 120%Z |} ]))
       [HttpPost url payload_query].
Proof.
  simpl. split; [lia|]. split; vm_compute; reflexivity.
Qed.

(** C9, amended.  For every fetch outcome that is a transport error, a 4xx
    or 5xx status, or malformed JSON, [fetch_ssb_data] catches the exception,
    shows one error made of the fixed prefix and the text of the exception,
    and returns [None]; it issues exactly one request. *)
Theorem fetch_failure_is_reported (post : result Response) (e : exn) :
  fetch_failure post e ->
  fetch_ssb_data post
  = Io (Ok None) [HttpPost url payload_query; StError (error_prefix +:+ str e)]
  /\ length (filter is_post (io_trace (fetch_ssb_data post))) = 1%nat.
Proof.
  intros Hf.
  assert (Heq : fetch_ssb_data post
                = Io (Ok None) [HttpPost url payload_query;
                                StError (error_prefix +:+ str e)]).
  { unfold fetch_ssb_data, requests_post, raise_for_status.
    destruct Hf as [e|r Hst|r e Hst Hjson]; simpl.
    - done.
    - destruct (_ && _) eqn:Hb; [done|lia].
    - destruct (_ && _) eqn:Hb; [lia|]. simpl. by rewrite Hjson. }
  split; [exact Heq|]. by rewrite Heq.
Qed.

Lemma status_404_is_reported :
  fetch_ssb_data
    (Ok {| status_code := 404; reason := "404 Client Error: Not Found";
           json := Ok labelled_body |})
  = Io (Ok None)
       [HttpPost url payload_query;
        StError "Feil ved henting av data fra SSB: 404 Client Error: Not Found"]
  /\ length (filter is_post (io_trace (fetch_ssb_data
       (Ok {| status_code := 404; reason := "404 Client Error: Not Found";
              json := Ok labelled_body |})))) = 1%nat.
Proof.
  apply (fetch_failure_is_reported
           (Ok {| status_code := 404; reason := "404 Client Error: Not Found";
                  json := Ok labelled_body |})
           (Exn HTTPError "404 Client Error: Not Found")).
  apply (error_status {| status_code := 404;
                         reason := "404 Client Error: Not Found";
                         json := Ok labelled_body |}).
  simpl. lia.
Defined.

(* ===================================================================== *)
(** * Properties of [get_ai_insight]                                      *)
(* ===================================================================== *)

Section InsightProperties.
Context {Data : Type}.
Variable to_string : Data -> result string.
Variable generate_content : string -> string -> string -> result (result string).

(** Without a key nothing is configured and nothing is sent. *)
Lemma get_ai_insight_no_key (session_state : gmap string string)
    (data : Data) (prompt_context : string) :
  session_state !! "GEMINI_API_KEY" = None \/
  session_state !! "GEMINI_API_KEY" = Some "" ->
  get_ai_insight to_string generate_content session_state data prompt_context
  = Io (Ok no_key_message) [].
Proof.
  intros [H|H]; unfold get_ai_insight; by rewrite H.
Qed.

(** Every path of the function ends in [return]. *)
Lemma get_ai_insight_returns (session_state : gmap string string)
    (data : Data) (prompt_context : string) :
  exists text trace,
    get_ai_insight to_string generate_content session_state data prompt_context
    = Io (Ok text) trace.
Proof.
  unfold get_ai_insight, getitem_map, getitem_field.
  destruct (session_state !! "GEMINI_API_KEY") as [api_key|]; simpl;
    [|by eexists _, _].
  destruct (negb (negb _)); simpl; [by eexists _, _|].
  destruct (to_string data) as [table_text|e]; simpl; [|by eexists _, _].
  destruct (generate_content _ _ _) as [[text|e]|e]; simpl; by eexists _, _.
Qed.
End InsightProperties.

(** C8.  [get_ai_insight] returns a string on every input, whatever the
    frame printer and the Gemini client do; and when the stored key is unset
    or empty it returns the fixed message and causes no event at all, so no
    network call. *)
Theorem insight_never_raises {Data : Type}
    (to_string : Data -> result string)
    (generate_content : string -> string -> string -> result (result string))
    (session_state : gmap string string) (data : Data)
    (prompt_context : string) :
  (exists text trace,
      get_ai_insight to_string generate_content session_state data prompt_context
      = Io (Ok text) trace) /\
  (session_state !! "GEMINI_API_KEY" = None \/
   session_state !! "GEMINI_API_KEY" = Some "" ->
   get_ai_insight to_string generate_content session_state data prompt_context
   = Io (Ok no_key_message) [] /\
   filter is_network
     (io_trace (get_ai_insight to_string generate_content session_state data
                  prompt_context)) = []).
Proof.
  split; [apply get_ai_insight_returns|].
  intros H. rewrite (get_ai_insight_no_key _ _ _ _ _ H). done.
Qed.

Lemma insight_with_empty_key :
  get_ai_insight (fun _ : unit => Ok "År  Antall")
                 (fun _ _ _ => Ok (Ok "Ledigheten falt."))
                 {[ "GEMINI_API_KEY" := "" ]} tt "Analyser"
  = Io (Ok no_key_message) [] /\
  filter is_network
    (io_trace (get_ai_insight (fun _ : unit => Ok "År  Antall")
                 (fun _ _ _ => Ok (Ok "Ledigheten falt."))
                 {[ "GEMINI_API_KEY" := "" ]} tt "Analyser")) = [].
Proof.
  apply (proj2 (insight_never_raises (fun _ : unit => Ok "År  Antall")
                  (fun _ _ _ => Ok (Ok "Ledigheten falt."))
                  {[ "GEMINI_API_KEY" := "" ]} tt "Analyser")).
  right. reflexivity.
Defined.

(** With a key the prompt is sent once; an exception of the client becomes
    the returned text. *)
Example insight_with_invalid_key :
  get_ai_insight (fun _ : unit => Ok "T")
                 (fun _ _ _ => Raise (Exn GenaiError "400 API key not valid."))
                 {[ "GEMINI_API_KEY" := "k" ]} tt "P"
  = Io (Ok ("Kunne ikke generere KI-innsikt: 400 API key not valid." +:+ nl
            +:+ "Vennligst sjekk om API-nøkkelen er korrekt."))
       [GenaiConfigure "k";
        GenerateContent "gemini-1.5-flash"
          ("P" +:+ nl +:+ nl +:+ "Data:" +:+ nl +:+ "T")].
Proof. vm_compute. reflexivity. Qed.

(* ===================================================================== *)
(** * Further properties of the body-to-table step                        *)
(* ===================================================================== *)

Lemma transform_axes (data : Body) (ax : Axes) :
  axes_of data = Some ax -> transform data = to_table (records_of_axes ax).
Proof.
  intros Hax. unfold transform. by rewrite (collect_records_axes _ _ Hax).
Qed.

Lemma axis_in_names (axis : string) :
  axis = "Tid" \/ axis = "Kjonn" \/ axis = "Alder" -> axis ∈ axis_names.
Proof.
  intros [ -> | [ -> | -> ] ]; unfold axis_names; repeat constructor.
Qed.

Ltac lacks_on axis :=
  first
    [ by (eapply (lacks_category _ _ axis);
          [reflexivity|apply axis_in_names; tauto|eassumption|reflexivity])
    | by (eapply (lacks_index _ _ axis);
          [reflexivity|apply axis_in_names; tauto|eassumption
          |reflexivity|reflexivity]) ].

Ltac prove_lacks :=
  first
    [ by apply lacks_dimension
    | by apply lacks_value
    | by (eapply lacks_axis;
          [reflexivity|apply axis_in_names; tauto|eassumption])
    | lacks_on "Tid" | lacks_on "Kjonn" | lacks_on "Alder" ].

Ltac missing :=
  intros _; eexists; split; [reflexivity|]; split; [prove_lacks|];
  split; [by intros|]; by intros.

(** The step on a body that lacks a key it reads: the [KeyError] of the
    first such key in the order of lines 55 to 72. *)
Lemma transform_missing_key (data : Body) :
  axes_of data = None ->
  exists k,
    transform data = key_error k /\
    lacks data k /\
    (dimension data = None -> k = "dimension") /\
    (dimension data <> None -> value data = None -> k = "value").
Proof.
  unfold transform, collect_records, axes_of, category_of, labels_or_index,
    index_keys, getitem_map, getitem_field.
  destruct data as [[dims|] [vals|]]; simpl; try missing.
  destruct (dims !! "Tid") as [[[[[it|] [lt|]]|]]|] eqn:ETid; simpl;
    try missing;
    destruct (dims !! "Kjonn") as [[[[[ig|] [lg|]]|]]|] eqn:EKjonn; simpl;
    try missing;
    destruct (dims !! "Alder") as [[[[[ia|] [la|]]|]]|] eqn:EAlder; simpl;
    try missing;
    discriminate.
Qed.



(** X2.  A body that lacks [dimension], [value], an axis, its [category] or
    its [index] makes the step raise the [KeyError] of a key the body does
    lack, the first one in the order the code reads them ([dimension], then
    [value]); the body of the fetch shows that key and returns [None]. *)
Theorem missing_key_is_reported (r : Response) (data : Body) :
  ~ (400 <= status_code r < 600)%Z ->
  json r = Ok data ->
  axes_of data = None ->
  exists k,
    lacks data k /\
    (dimension data = None -> k = "dimension") /\
    (dimension data <> None -> value data = None -> k = "value") /\
    transform data = key_error k /\
    fetch_ssb_data (Ok r)
    = Io (Ok None)
         [HttpPost url payload_query; StError (error_prefix +:+ repr_key k)].
Proof.
  intros Hst Hjson Hax.
  destruct (transform_missing_key data Hax) as (k & Ht & Hl & H1 & H2).
  exists k. repeat (split; [done|]).
  by rewrite (fetch_ssb_data_transform_error r data _ Hst Hjson Ht).
Qed.

Lemma missing_value_is_reported :
  exists k,
    lacks no_value_body k /\
    (dimension no_value_body = None -> k = "dimension") /\
    (dimension no_value_body <> None -> value no_value_body = None ->
     k = "value") /\
    transform no_value_body = key_error k /\
    fetch_ssb_data (Ok (ok_response no_value_body))
    = Io (Ok None)
         [HttpPost url payload_query; StError (error_prefix +:+ repr_key k)].
Proof.
  apply (missing_key_is_reported (ok_response no_value_body) no_value_body).
  - simpl. lia.
  - reflexivity.
  - vm_compute. reflexivity.
Defined.

Example missing_value_message :
  fetch_ssb_data (Ok (ok_response no_value_body))
  = Io (Ok None)
       [HttpPost url payload_query;
        StError "Feil ved henting av data fra SSB: 'value'"].
Proof. vm_compute. reflexivity. Qed.

Lemma fetch_ssb_data_cases (post : result Response) :
  (exists table,
      table <> [] /\
      fetch_ssb_data post = Io (Ok (Some table)) [HttpPost url payload_query])
  \/
  (exists e,
      fetch_ssb_data post
      = Io (Ok None)
           [HttpPost url payload_query; StError (error_prefix +:+ str e)]).
Proof.
  unfold fetch_ssb_data, requests_post, raise_for_status.
  destruct post as [r|e]; simpl; [|right; by exists e].
  destruct (_ && _); simpl; [right; by exists (Exn HTTPError (reason r))|].
  destruct (json r) as [data|e]; simpl; [|right; by exists e].
  destruct (transform data) as [table|e] eqn:Ht; simpl; [|right; by exists e].
  left. exists table. split; [|done].
  unfold transform in Ht.
  destruct (collect_records data) as [records|e]; [|done]. simpl in Ht.
  intros ->. destruct records as [|r0 records].
  - by rewrite to_table_nil in Ht.
  - apply to_table_Ok in Ht. inversion Ht.
Qed.

(* ===================================================================== *)
(** * Properties of the cache                                             *)
(* ===================================================================== *)

Lemma cache_after_snoc (calls : list (result Response * bool))
    (post : result Response) (held : bool) :
  cache_after (calls ++ [(post, held)])
  = (fetch_ssb_data_cached post held (cache_after calls)).2.
Proof. unfold cache_after. by rewrite foldl_snoc. Qed.

(** A miss runs the body and stores what it returned and showed. *)
Lemma fetch_ssb_data_cached_miss (post : result Response) (held : bool)
    (cache : option CacheEntry) :
  cache_hit held cache = false ->
  exists df,
    io_result (fetch_ssb_data post) = Ok df /\
    fetch_ssb_data_cached post held cache
    = (fetch_ssb_data post,
       Some {| cached_value := df;
               cached_elements :=
                 List.filter is_element (io_trace (fetch_ssb_data post)) |}) /\
    entry_agrees
      {| cached_value := df;
         cached_elements :=
           List.filter is_element (io_trace (fetch_ssb_data post)) |}.
Proof.
  unfold cache_hit, fetch_ssb_data_cached. intros Hmiss.
  destruct (cache_lookup held cache); [discriminate|].
  destruct (fetch_ssb_data_cases post) as [(table & Hne & ->)|(e & ->)];
    cbn [io_result io_trace List.filter is_element].
  - exists (Some table). do 2 (split; [done|]). left. by exists table.
  - exists None. do 2 (split; [done|]). right. by exists e.
Qed.

(** A hit returns and shows what the entry holds, and leaves the entry. *)
Lemma fetch_ssb_data_cached_hit (post : result Response) (held : bool)
    (cache : option CacheEntry) :
  cache_hit held cache = true ->
  exists entry,
    cache = Some entry /\
    fetch_ssb_data_cached post held cache
    = (Io (Ok (cached_value entry)) (cached_elements entry), Some entry).
Proof.
  unfold cache_hit, fetch_ssb_data_cached, cache_lookup.
  destruct held; [|discriminate]. destruct cache as [entry|]; [|discriminate].
  intros _. by exists entry.
Qed.

(** Every entry a process ever holds comes from a run of the body. *)
Lemma cache_after_agrees (calls : list (result Response * bool))
    (entry : CacheEntry) :
  cache_after calls = Some entry -> entry_agrees entry.
Proof.
  revert entry. induction calls as [|[post held] calls IH] using rev_ind;
    intros entry; [discriminate|].
  rewrite cache_after_snoc.
  destruct (cache_hit held (cache_after calls)) eqn:Hhit.
  - destruct (fetch_ssb_data_cached_hit post _ _ Hhit) as (entry' & Hc & ->).
    cbn [snd]. intros [= <-]. by apply IH.
  - destruct (fetch_ssb_data_cached_miss post _ _ Hhit) as (df & _ & -> & Hok).
    by intros [= <-].
Qed.

(** One call in a process with any history: a POST on a miss only, then a
    table and nothing shown, or [None] and the one error. *)
Lemma fetch_ssb_data_cached_cases (calls : list (result Response * bool))
    (post : result Response) (held : bool) :
  (exists table,
      table <> [] /\
      (fetch_ssb_data_cached post held (cache_after calls)).1
      = Io (Ok (Some table))
           (if cache_hit held (cache_after calls) then []
            else [HttpPost url payload_query]))
  \/
  (exists e,
      (fetch_ssb_data_cached post held (cache_after calls)).1
      = Io (Ok None)
           ((if cache_hit held (cache_after calls) then []
             else [HttpPost url payload_query])
            ++ [StError (error_prefix +:+ str e)])).
Proof.
  destruct (cache_hit held (cache_after calls)) eqn:Hhit.
  - destruct (fetch_ssb_data_cached_hit post _ _ Hhit) as (entry & Hc & ->).
    cbn [fst].
    destruct (cache_after_agrees _ _ Hc) as [(table & Hne & ->)|(e & ->)].
    + left. by exists table.
    + right. by exists e.
  - destruct (fetch_ssb_data_cached_miss post _ _ Hhit) as (df & _ & -> & _).
    cbn [fst].
    destruct (fetch_ssb_data_cases post) as [(table & Hne & ->)|(e & ->)].
    + left. by exists table.
    + right. by exists e.
Qed.

(** X3.  [None] is returned exactly when the error box is shown, and a returned
    table is never empty, with the cache of line 31 in place: whatever calls
    the process has seen, a call that finds no entry is one POST followed
    either by a non-empty table and nothing shown, or by one error and
    [None], as the body of the function gives them; a call that finds the
    entry issues no POST and gives the stored table and nothing shown, or
    [None] and the stored error shown again.  A call that follows while the
    entry is held returns what the call before it returned and shows the
    error that call showed, without a POST, whatever the endpoint would
    answer by then, and leaves the entry as it is. *)
Theorem fetch_result_and_error_agree
    (calls : list (result Response * bool)) (post post' : result Response)
    (held : bool) :
  let cache := cache_after calls in
  let call := fetch_ssb_data_cached post held cache in
  let posts :=
    if cache_hit held cache then [] else [HttpPost url payload_query] in
  ((exists table, table <> [] /\ call.1 = Io (Ok (Some table)) posts)
   \/
   (exists e,
       call.1 = Io (Ok None) (posts ++ [StError (error_prefix +:+ str e)])))
  /\
  (cache_hit held cache = false -> call.1 = fetch_ssb_data post) /\
  fetch_ssb_data_cached post' true call.2
  = (Io (io_result call.1) (List.filter is_element (io_trace call.1)),
     call.2).
Proof.
  intros cache call posts. subst cache call posts.
  split; [apply fetch_ssb_data_cached_cases|].
  split.
  { intros Hmiss.
    by destruct (fetch_ssb_data_cached_miss post _ _ Hmiss) as (df & _ & -> & _). }
  destruct (cache_hit held (cache_after calls)) eqn:Hhit.
  - destruct (fetch_ssb_data_cached_hit post _ _ Hhit) as (entry & Hc & ->).
    cbn [fst snd io_result io_trace].
    unfold fetch_ssb_data_cached, cache_lookup. do 2 f_equal.
    by destruct (cache_after_agrees _ _ Hc) as [(table & _ & ->)|(e & ->)].
  - destruct (fetch_ssb_data_cached_miss post _ _ Hhit) as (df & Hdf & -> & _).
    cbn [fst snd]. unfold fetch_ssb_data_cached at 1, cache_lookup.
    cbn [cached_value cached_elements]. rewrite Hdf.
    by destruct (fetch_ssb_data_cases post) as [(table & _ & ->)|(e & ->)].
Qed.

Lemma stale_error_is_replayed :
  let cache :=
    cache_after
      [(Ok {| status_code := 404; reason := "404 Client Error: Not Found";
              json := Ok labelled_body |}, false)] in
  let call := fetch_ssb_data_cached (Ok (ok_response labelled_body)) true cache in
  let posts :=
    if cache_hit true cache then [] else [HttpPost url payload_query] in
  ((exists table, table <> [] /\ call.1 = Io (Ok (Some table)) posts)
   \/
   (exists e,
       call.1 = Io (Ok None) (posts ++ [StError (error_prefix +:+ str e)])))
  /\
  (cache_hit true cache = false ->
   call.1 = fetch_ssb_data (Ok (ok_response labelled_body))) /\
  fetch_ssb_data_cached (Ok (ok_response labelled_body)) true call.2
  = (Io (io_result call.1) (List.filter is_element (io_trace call.1)),
     call.2).
Proof.
  apply (fetch_result_and_error_agree
           [(Ok {| status_code := 404; reason := "404 Client Error: Not Found";
                   json := Ok labelled_body |}, false)]
           (Ok (ok_response labelled_body)) (Ok (ok_response labelled_body))
           true).
Defined.

Example stale_error_after_status_404 :
  (fetch_ssb_data_cached (Ok (ok_response labelled_body)) true
     (cache_after
        [(Ok {| status_code := 404; reason := "404 Client Error: Not Found";
                json := Ok labelled_body |}, false)])).1
  = Io (Ok None)
       [StError "Feil ved henting av data fra SSB: 404 Client Error: Not Found"].
Proof. vm_compute. reflexivity. Qed.

(** X4.  The gender labels of the body are never looked at: two bodies whose axes
    differ in the gender [label] map only give the same result. *)
Theorem gender_labels_are_ignored (data1 data2 : Body) (ax : Axes)
    (gl : option (pydict pyval)) :
  axes_of data1 = Some ax ->
  axes_of data2 = Some (with_gender_label ax gl) ->
  transform data1 = transform data2.
Proof.
  intros H1 H2. by rewrite (transform_axes _ _ H1), (transform_axes _ _ H2).
Qed.

Lemma gender_labels_of_labelled_body_are_ignored :
  transform labelled_body
  = transform (body_of_axes (with_gender_label labelled_axes
                               (Some [("0", PStr "Totalt")]))).
Proof.
  apply (gender_labels_are_ignored _ _ labelled_axes (Some [("0", PStr "Totalt")]));
    apply axes_of_body_of_axes.
Defined.

Lemma flat_records_values_ext tl al ti gi ai (vals1 vals2 : list (option Z)) :
  (forall p, (p < length ti * length gi * length ai)%nat ->
             vals1 !! p = vals2 !! p) ->
  flat_records tl al ti gi ai vals1 = flat_records tl al ti gi ai vals2.
Proof.
  intros Hv. unfold flat_records. f_equal.
  apply imap_ext. intros i yc Hi. f_equal.
  apply imap_ext. intros j gc Hj.
  apply imap_ext. intros k ac Hk.
  unfold row_of. f_equal. f_equal. apply Hv.
  apply lookup_lt_Some in Hi, Hj, Hk.
  assert (j * length ai + k < length gi * length ai)%nat by nia.
  assert (S i * (length gi * length ai) <= length ti * (length gi * length ai))%nat
    by (apply Nat.mul_le_mono_r; lia).
  lia.
Qed.

(** X5.  Only the first [T*G*A] cells of [value] are read: two bodies whose
    [value] arrays agree on them give the same result. *)
Theorem surplus_values_are_ignored (data1 data2 : Body) (ax : Axes)
    (vals : list (option Z)) :
  axes_of data1 = Some ax ->
  axes_of data2 = Some (with_values ax vals) ->
  take (n_time ax * n_gender ax * n_age ax) (values ax)
  = take (n_time ax * n_gender ax * n_age ax) vals ->
  transform data1 = transform data2.
Proof.
  intros H1 H2 Htake.
  rewrite (transform_axes _ _ H1), (transform_axes _ _ H2). f_equal.
  unfold records_of_axes. simpl. apply flat_records_values_ext.
  unfold keys. rewrite !length_fmap. intros p Hp.
  fold (n_time ax) (n_gender ax) (n_age ax) in Hp.
  rewrite <- (lookup_take_lt (values ax) _ p Hp),
          <- (lookup_take_lt vals _ p Hp).
  by rewrite Htake.
Qed.

Lemma surplus_values_of_labelled_body :
  transform labelled_body
  = transform (body_of_axes (with_values labelled_axes
                               [Some 100%Z; Some 120%Z; Some 7%Z; None])).
Proof.
  apply (surplus_values_are_ignored _ _ labelled_axes
           [Some 100%Z; Some 120%Z; Some 7%Z; None]);
    [apply axes_of_body_of_axes .. | reflexivity].
Defined.

(** X6.  Conversely to the order of flattening, every dict the loops append
    is that of exactly one combination: dict number [n] is that of the time
    code [n / A / G], the gender code [(n / A) mod G] and the age code
    [n mod A]; it carries the labels of these three codes and cell [n] of
    [value] ([None] past the end).  Row [n] of every returned table carries
    the same gender label, and the same age-group label when that is a
    text. *)
Theorem every_row_is_a_combination (data : Body) (ax : Axes) (n : nat) :
  axes_of data = Some ax ->
  (n < n_time ax * n_gender ax * n_age ax)%nat ->
  let i := (n / n_age ax / n_gender ax)%nat in
  let j := ((n / n_age ax) mod n_gender ax)%nat in
  let k := (n mod n_age ax)%nat in
  n = flat_pos ax i j k /\
  exists yc gc ac,
    keys (time_index ax) !! i = Some yc /\
    keys (gender_index ax) !! j = Some gc /\
    keys (age_index ax) !! k = Some ac /\
    (exists records,
        collect_records data = Ok records /\
        length records = (n_time ax * n_gender ax * n_age ax)%nat /\
        records !! n
        = Some {| raw_year :=
                    dict_get (labels_used (time_index ax) (time_label ax))
                             yc (PStr yc);
                  raw_gender := default gc (gender_map !! gc);
                  raw_age_group :=
                    dict_get (labels_used (age_index ax) (age_label ax))
                             ac (PStr ac);
                  raw_count := default None (values ax !! n) |}) /\
    (forall table,
        transform data = Ok table ->
        exists row,
          table !! n = Some row /\
          gender row = default gc (gender_map !! gc) /\
          forall text,
            dict_get (labels_used (age_index ax) (age_label ax)) ac (PStr ac)
            = PStr text ->
            age_group row = PStr text).
Proof.
  intros Hax Hlt i j k.
  set (T := n_time ax) in *. set (G := n_gender ax) in *.
  set (A := n_age ax) in *.
  assert (HA : A <> 0%nat) by (intros HA; rewrite HA in Hlt; lia).
  assert (HG : G <> 0%nat) by (intros HG; rewrite HG in Hlt; lia).
  assert (Hk : (k < A)%nat) by (apply Nat.mod_upper_bound; done).
  assert (Hj : (j < G)%nat) by (apply Nat.mod_upper_bound; done).
  assert (Hq : (n / A < T * G)%nat)
    by (apply Nat.Div0.div_lt_upper_bound; lia).
  assert (Hi : (i < T)%nat)
    by (apply Nat.Div0.div_lt_upper_bound; lia).
  assert (Hpos : n = flat_pos ax i j k).
  { unfold flat_pos. fold G A. subst i j k.
    pose proof (Nat.div_mod_eq n A) as E1.
    pose proof (Nat.div_mod_eq (n / A) G) as E2.
    set (q := (n / A)%nat) in *. nia. }
  split; [exact Hpos|].
  destruct (lookup_lt_is_Some_2 (keys (time_index ax)) i) as [yc Hyc];
    [unfold keys; by rewrite length_fmap|].
  destruct (lookup_lt_is_Some_2 (keys (gender_index ax)) j) as [gc Hgc];
    [unfold keys; by rewrite length_fmap|].
  destruct (lookup_lt_is_Some_2 (keys (age_index ax)) k) as [ac Hac];
    [unfold keys; by rewrite length_fmap|].
  exists yc, gc, ac. repeat (split; [done|]). split.
  - exists (records_of_axes ax). split; [by apply collect_records_axes|].
    split; [apply length_records_of_axes|].
    pose proof (records_of_axes_lookup ax i j k yc gc ac Hyc Hgc Hac) as Hr.
    by rewrite <- Hpos in Hr.
  - intros table Ht.
    destruct (transform_lookup data ax table i j k yc gc ac Hax Hyc Hgc Hac Ht)
      as (y & Hy & Hrow).
    rewrite <- Hpos in Hrow. eexists. split; [exact Hrow|].
    split; [done|]. intros text Htext. exact Htext.
Qed.

Lemma row_five_of_synthetic_table :
  5%nat = flat_pos synthetic_axes 1 0 1 /\
  exists yc gc ac,
    keys (time_index synthetic_axes) !! 1%nat = Some yc /\
    keys (gender_index synthetic_axes) !! 0%nat = Some gc /\
    keys (age_index synthetic_axes) !! 1%nat = Some ac /\
    (exists records,
        collect_records synthetic_body = Ok records /\
        length records = 8%nat /\
        records !! 5%nat
        = Some {| raw_year :=
                    dict_get (labels_used (time_index synthetic_axes)
                                          (time_label synthetic_axes))
                             yc (PStr yc);
                  raw_gender := default gc (gender_map !! gc);
                  raw_age_group :=
                    dict_get (labels_used (age_index synthetic_axes)
                                          (age_label synthetic_axes))
                             ac (PStr ac);
                  raw_count := default None (values synthetic_axes !! 5%nat) |})
    /\
    (forall table,
        transform synthetic_body = Ok table ->
        exists row,
          table !! 5%nat = Some row /\
          gender row = default gc (gender_map !! gc) /\
          forall text,
            dict_get (labels_used (age_index synthetic_axes)
                                  (age_label synthetic_axes)) ac (PStr ac)
            = PStr text ->
            age_group row = PStr text).
Proof.
  apply (every_row_is_a_combination synthetic_body synthetic_axes 5).
  - apply axes_of_body_of_axes.
  - vm_compute. lia.
Defined.

(* ===================================================================== *)
(** * Further properties of [get_ai_insight]                              *)
(* ===================================================================== *)

Lemma append_nil_l (s : string) : "" +:+ s = s.
Proof. reflexivity. Qed.

Lemma append_cons (a : ascii) (s1 s2 : string) :
  String a s1 +:+ s2 = String a (s1 +:+ s2).
Proof. reflexivity. Qed.

Lemma append_assoc (s1 s2 s3 : string) :
  (s1 +:+ s2) +:+ s3 = s1 +:+ (s2 +:+ s3).
Proof.
  induction s1 as [|a s1 IH]; [done|]. rewrite !append_cons. by f_equal.
Qed.

Lemma prefix_append (needle s : string) :
  String.prefix needle s = true <-> exists post, s = needle +:+ post.
Proof.
  revert s. induction needle as [|a needle IH]; intros s.
  - split; [intros _; by exists s|intros _; by destruct s].
  - destruct s as [|b s]; simpl;
      [split; [done|intros [post H]; discriminate]|].
    destruct (ascii_dec a b) as [->|Hne].
    + rewrite IH. split; intros [post H]; exists post.
      * by rewrite append_cons, H.
      * rewrite append_cons in H. by injection H.
    + split; [done|]. intros [post H]. rewrite append_cons in H.
      injection H as H1 H2. congruence.
Qed.

(** [contains] is the substring test. *)
Lemma contains_substring_of (needle s : string) :
  contains needle s = true <-> substring_of needle s.
Proof.
  unfold substring_of. induction s as [|c s IH].
  - cbn [contains]. rewrite orb_false_r, prefix_append. split.
    + intros [post H]. by exists "", post.
    + intros (pre & post & H). destruct pre; [by exists post|discriminate].
  - cbn [contains]. rewrite orb_true_iff, prefix_append, IH. split.
    + intros [[post H]|(pre & post & H)].
      * by exists "", post.
      * exists (String c pre), post. by rewrite append_cons, H.
    + intros (pre & post & H). destruct pre as [|c' pre].
      * left. by exists post.
      * right. rewrite append_cons in H. injection H as _ H.
        by exists pre, post.
Qed.

Section InsightWithKey.
Context {Data : Type}.
Variable to_string : Data -> result string.
Variable generate_content : string -> string -> string -> result (result string).

Lemma handler_reports (e : exn) :
  reports e
    (if contains "API key not valid" (str e)
     then ("Kunne ikke generere KI-innsikt: " +:+ str e) +:+ nl
          +:+ "Vennligst sjekk om API-nøkkelen er korrekt."
     else "Kunne ikke generere KI-innsikt: " +:+ str e).
Proof.
  unfold reports.
  destruct (contains "API key not valid" (str e)) eqn:Hc; split; intros H.
  - by rewrite append_assoc.
  - by apply contains_substring_of in Hc.
  - apply contains_substring_of in H. congruence.
  - done.
Qed.

(** The text and the events of a call: nothing happens without a key; with
    one the client is configured and at most one prompt is sent. *)
Lemma get_ai_insight_shape (session_state : gmap string string)
    (data : Data) (prompt_context : string) :
  exists text trace,
    get_ai_insight to_string generate_content session_state data prompt_context
    = Io (Ok text) trace /\
    ((truthy (session_state !! "GEMINI_API_KEY") = false /\
      trace = [] /\ text = no_key_message) \/
     (exists key,
        session_state !! "GEMINI_API_KEY" = Some key /\ key <> "" /\
        (trace = [GenaiConfigure key] \/
         exists prompt,
           trace = [GenaiConfigure key;
                    GenerateContent "gemini-1.5-flash" prompt]))).
Proof.
  unfold get_ai_insight, getitem_map, getitem_field.
  destruct (session_state !! "GEMINI_API_KEY") as [api_key|]; simpl;
    [|eexists _, _; split; [done|by left]].
  destruct (String.eqb_spec api_key "") as [->|Hne]; simpl;
    [eexists _, _; split; [done|by left]|].
  destruct (to_string data) as [table_text|e]; simpl;
    [|eexists _, _; split; [done|]; right; exists api_key;
      split; [done|]; split; [done|by left]].
  destruct (generate_content _ _ _) as [[text|e]|e]; simpl;
    (eexists _, _; split; [done|]; right; exists api_key; split; [done|];
     split; [done|]; right; by eexists).
Qed.
End InsightWithKey.

(** X7.  With a stored key the client is configured with that key first; no prompt
    is sent when printing the frame fails, and exactly one otherwise, made
    of the prompt text, a blank line, "Data:" and the printed frame; the
    returned text is the model's, or else the message for the exception
    raised, which ends with the hint about the key exactly when the text of
    the exception contains "API key not valid". *)
Theorem insight_with_key {Data : Type}
    (to_string : Data -> result string)
    (generate_content : string -> string -> string -> result (result string))
    (session_state : gmap string string) (data : Data)
    (prompt_context key : string) :
  session_state !! "GEMINI_API_KEY" = Some key ->
  key <> "" ->
  exists text rest,
    get_ai_insight to_string generate_content session_state data prompt_context
    = Io (Ok text) (GenaiConfigure key :: rest) /\
    ((exists e, to_string data = Raise e /\ rest = [] /\ reports e text) \/
     (exists table_text,
        to_string data = Ok table_text /\
        let full_prompt :=
          prompt_context +:+ nl +:+ nl +:+ "Data:" +:+ nl +:+ table_text in
        rest = [GenerateContent "gemini-1.5-flash" full_prompt] /\
        (generate_content key "gemini-1.5-flash" full_prompt = Ok (Ok text) \/
         exists e,
           (generate_content key "gemini-1.5-flash" full_prompt = Raise e \/
            generate_content key "gemini-1.5-flash" full_prompt = Ok (Raise e))
           /\ reports e text))).
Proof.
  intros Hkey Hne.
  unfold get_ai_insight, getitem_map, getitem_field. rewrite Hkey. simpl.
  destruct (String.eqb_spec key "") as [->|_]; [done|]. simpl.
  destruct (to_string data) as [table_text|e]; simpl.
  - destruct (generate_content _ _ _) as [[text|e]|e] eqn:Hg; simpl;
      eexists _, _; (split; [reflexivity|]); right; exists table_text;
      (split; [done|]); simpl; (split; [done|]).
    + by left.
    + right. exists e. split; [by right|apply handler_reports].
    + right. exists e. split; [by left|apply handler_reports].
  - eexists _, _. split; [reflexivity|]. left. exists e.
    split; [done|]. split; [done|apply handler_reports].
Qed.

Lemma insight_with_invalid_key_reports :
  exists text rest,
    get_ai_insight (fun _ : unit => Ok "T")
      (fun _ _ _ => Raise (Exn GenaiError "400 API key not valid."))
      {[ "GEMINI_API_KEY" := "k" ]} tt "P"
    = Io (Ok text) (GenaiConfigure "k" :: rest) /\
    ((exists e, (fun _ : unit => Ok "T") tt = Raise e /\ rest = [] /\
                reports e text) \/
     (exists table_text,
        (fun _ : unit => Ok "T") tt = Ok table_text /\
        let full_prompt := "P" +:+ nl +:+ nl +:+ "Data:" +:+ nl +:+ table_text in
        rest = [GenerateContent "gemini-1.5-flash" full_prompt] /\
        ((fun _ _ _ : string =>
            @Raise (result string) (Exn GenaiError "400 API key not valid."))
           "k" "gemini-1.5-flash" full_prompt = Ok (Ok text) \/
         exists e,
           ((fun _ _ _ : string =>
               @Raise (result string) (Exn GenaiError "400 API key not valid."))
              "k" "gemini-1.5-flash" full_prompt = Raise e \/
            (fun _ _ _ : string =>
               @Raise (result string) (Exn GenaiError "400 API key not valid."))
              "k" "gemini-1.5-flash" full_prompt = Ok (Raise e))
           /\ reports e text))).
Proof.
  apply (insight_with_key (fun _ : unit => Ok "T")
           (fun _ _ _ => Raise (Exn GenaiError "400 API key not valid."))
           {[ "GEMINI_API_KEY" := "k" ]} tt "P" "k").
  - reflexivity.
  - discriminate.
Defined.

(* ===================================================================== *)
(** * Properties of the views                                             *)
(* ===================================================================== *)

Section FilterCount.
Context {A B : Type}.

Lemma filter_length_imap (p : B -> bool) (q : A -> bool)
    (f : nat -> A -> B) (l : list A) :
  (forall i x, p (f i x) = q x) ->
  length (List.filter p (imap f l)) = length (List.filter q l).
Proof.
  revert f. induction l as [|x l IH]; intros f Hf; simpl; [done|].
  rewrite Hf. destruct (q x); simpl; rewrite (IH (f ∘ S)); try done;
    intros i y; apply Hf.
Qed.

Lemma filter_length_blocks (p : B -> bool) (g : nat -> A -> list B)
    (h : A -> nat) (xs : list A) :
  (forall i x, length (List.filter p (g i x)) = h x) ->
  length (List.filter p (concat (imap g xs))) = sum_list (h <$> xs).
Proof.
  revert g. induction xs as [|x xs IH]; intros g Hg; simpl; [done|].
  rewrite List.filter_app, length_app, Hg, (IH (g ∘ S)); [done|].
  intros i y. apply Hg.
Qed.

Lemma sum_list_const (c : nat) (xs : list A) :
  sum_list ((fun _ => c) <$> xs) = (length xs * c)%nat.
Proof.
  induction xs as [|x xs IH]; [done|].
  change (c + sum_list ((fun _ => c) <$> xs) = S (length xs) * c)%nat.
  rewrite IH. lia.
Qed.

Lemma filter_length_pairs (P : A -> B -> bool) (l : list A) (k : list B) :
  sum_list ((fun x => length (List.filter (P x) k)) <$> l)
  = length (List.filter (fun xy => P xy.1 xy.2) (list_prod l k)).
Proof.
  induction l as [|x l IH]; simpl; [done|].
  rewrite List.filter_app, length_app. f_equal; [|exact IH].
  clear IH. induction k as [|y k IHk]; simpl; [done|].
  destruct (P x y); simpl; by rewrite IHk.
Qed.
End FilterCount.

Lemma Forall2_filter_length {A B} (R : A -> B -> Prop)
    (p : A -> bool) (q : B -> bool) (l : list A) (k : list B) :
  (forall x y, R x y -> p x = q y) ->
  Forall2 R l k ->
  length (List.filter p l) = length (List.filter q k).
Proof.
  intros Hpq H. induction H as [|x y l k Hxy _ IH]; simpl; [done|].
  rewrite (Hpq x y Hxy). destruct (q y); simpl; by rewrite IH.
Qed.

Lemma filter_length_fmap {A B} (f : A -> B) (p : B -> bool) (l : list A) :
  length (List.filter p (f <$> l)) = length (List.filter (fun x => p (f x)) l).
Proof.
  induction l as [|x l IH]; simpl; [done|].
  destruct (p (f x)); simpl; [f_equal|]; exact IH.
Qed.

Lemma view_length (data : Body) (ax : Axes) (table : Table)
    (P : string -> pyval -> bool) :
  axes_of data = Some ax ->
  transform data = Ok table ->
  length (boolean_index (fun r => P (gender r) (age_group r)) table)
  = (n_time ax
     * length (List.filter (fun ga => P ga.1 ga.2)
                 (list_prod (gender_texts ax) (age_texts ax))))%nat.
Proof.
  intros Hax Ht. rewrite (transform_axes _ _ Hax) in Ht.
  apply to_table_Ok in Ht. unfold boolean_index.
  transitivity (length (List.filter
                          (fun r => P (raw_gender r) (raw_age_group r))
                          (records_of_axes ax))).
  { symmetry. eapply Forall2_filter_length; [|exact Ht].
    by intros r row (y & _ & ->). }
  unfold records_of_axes, flat_records.
  rewrite (filter_length_blocks _ _
             (fun _ => length (List.filter (fun ga => P ga.1 ga.2)
                         (list_prod (gender_texts ax) (age_texts ax))))).
  { rewrite sum_list_const. unfold n_time, keys. by rewrite length_fmap. }
  intros i yc.
  rewrite (filter_length_blocks _ _
             (fun gc => length (List.filter (P (default gc (gender_map !! gc)))
                                  (age_texts ax)))).
  - rewrite <- filter_length_pairs. unfold gender_texts.
    by rewrite <- list_fmap_compose.
  - intros j gc. unfold age_texts. rewrite filter_length_fmap.
    by apply filter_length_imap.
Qed.

(** X8.  A view that looks at the gender and the age group only has, for every
    time code, one row per pair of a gender label and an age label that pass
    its mask. *)
Theorem view_size (data : Body) (ax : Axes) (table : Table)
    (P : string -> pyval -> bool) :
  axes_of data = Some ax ->
  transform data = Ok table ->
  length (boolean_index (fun r => P (gender r) (age_group r)) table)
  = (n_time ax
     * length (List.filter (fun ga => P ga.1 ga.2)
                 (list_prod (gender_texts ax) (age_texts ax))))%nat.
Proof. apply view_length. Qed.

Lemma overall_view_of_full_table :
  length (boolean_index overall_mask full_table) = 2%nat.
Proof.
  apply (view_size full_body full_axes full_table
           (fun g a => String.eqb g "Begge kjønn" && eq_str a "15-74 år"));
    vm_compute; reflexivity.
Defined.

(** X9.  When the rows carry the three gender labels of the fixed table and the
    four age labels of the API, the chart of the overall trend has one row
    per year, the gender comparison two, and the three age comparisons three
    each. *)
Theorem views_of_a_full_answer (data : Body) (ax : Axes) (table : Table) :
  axes_of data = Some ax ->
  transform data = Ok table ->
  gender_texts ax = ["Begge kjønn"; "Menn"; "Kvinner"] ->
  age_texts ax = PStr <$> all_age_groups ->
  length (boolean_index overall_mask table) = n_time ax /\
  length (boolean_index gender_mask table) = (n_time ax * 2)%nat /\
  length (boolean_index age_mask table) = (n_time ax * 3)%nat /\
  length (boolean_index male_age_mask table) = (n_time ax * 3)%nat /\
  length (boolean_index female_age_mask table) = (n_time ax * 3)%nat.
Proof.
  intros Hax Ht Hg Ha.
  pose proof (view_length data ax table
    (fun g a => String.eqb g "Begge kjønn" && eq_str a "15-74 år") Hax Ht) as H1.
  pose proof (view_length data ax table
    (fun g a => bool_decide (g ∈ ["Menn"; "Kvinner"]) && eq_str a "15-74 år")
    Hax Ht) as H2.
  pose proof (view_length data ax table
    (fun g a => String.eqb g "Begge kjønn" && isin a age_groups) Hax Ht) as H3.
  pose proof (view_length data ax table
    (fun g a => String.eqb g "Menn" && isin a age_groups) Hax Ht) as H4.
  pose proof (view_length data ax table
    (fun g a => String.eqb g "Kvinner" && isin a age_groups) Hax Ht) as H5.
  rewrite Hg, Ha in H1, H2, H3, H4, H5.
  repeat split;
    [rewrite <- (Nat.mul_1_r (n_time ax)); exact H1
    | exact H2 | exact H3 | exact H4 | exact H5].
Qed.

Lemma views_of_full_table :
  length (boolean_index overall_mask full_table) = 2%nat /\
  length (boolean_index gender_mask full_table) = 4%nat /\
  length (boolean_index age_mask full_table) = 6%nat /\
  length (boolean_index male_age_mask full_table) = 6%nat /\
  length (boolean_index female_age_mask full_table) = 6%nat.
Proof.
  apply (views_of_a_full_answer full_body full_axes full_table);
    vm_compute; reflexivity.
Defined.

(** ** [drop_duplicates] *)

Lemma drop_duplicates_rows_spec (seen rows : list (list pyval)) :
  NoDup (drop_duplicates_rows seen rows) /\
  (forall row, row ∈ drop_duplicates_rows seen rows <->
               row ∈ rows /\ row ∉ seen) /\
  sublist (drop_duplicates_rows seen rows) rows.
Proof.
  revert seen. induction rows as [|r rows IH]; intros seen; simpl.
  - split; [constructor|]. split; [|done].
    intros row. split; [by intros ?%elem_of_nil|by intros [?%elem_of_nil _]].
  - destruct (IH seen) as (Hnd & Hin & Hsub).
    destruct (IH (r :: seen)) as (Hnd' & Hin' & Hsub').
    case_bool_decide as Hseen.
    + split; [done|]. split; [|by apply sublist_cons].
      intros row. rewrite Hin, elem_of_cons. split; [intros [Hr Hns]; split; [by right|done]|].
      intros [[->|Hrow] Hns]; [done|by split].
    + split; [|split; [|by apply sublist_skip]].
      * constructor; [|done]. rewrite Hin', elem_of_cons.
        intros [_ Hr]. apply Hr. by left.
      * intros row. rewrite !elem_of_cons, Hin', elem_of_cons.
        split.
        { intros [->|[Hrow Hns]]; [split; [by left|done]|].
          split; [by right|]. intros Hs. apply Hns. by right. }
        intros [[->|Hrow] Hns]; [by left|].
        destruct (decide (row = r)) as [->|Hne]; [by left|right].
        split; [done|]. by intros [?|?].
Qed.

Lemma drop_duplicates_rows_ext (seen1 seen2 rows : list (list pyval)) :
  (forall row, row ∈ seen1 <-> row ∈ seen2) ->
  drop_duplicates_rows seen1 rows = drop_duplicates_rows seen2 rows.
Proof.
  revert seen1 seen2. induction rows as [|r rows IH]; intros s1 s2 Hs; simpl;
    [done|].
  rewrite (bool_decide_ext (r ∈ s1) (r ∈ s2)) by apply Hs.
  case_bool_decide; [by apply IH|]. f_equal. apply IH.
  intros row. rewrite !elem_of_cons. by rewrite Hs.
Qed.

Lemma drop_duplicates_rows_app (seen rows1 rows2 : list (list pyval)) :
  drop_duplicates_rows seen (rows1 ++ rows2)
  = drop_duplicates_rows seen rows1
    ++ drop_duplicates_rows (rows1 ++ seen) rows2.
Proof.
  revert seen. induction rows1 as [|r rows1 IH]; intros seen; simpl; [done|].
  case_bool_decide as Hseen.
  - rewrite IH. f_equal. apply drop_duplicates_rows_ext.
    intros row. rewrite !elem_of_app, elem_of_cons, elem_of_app.
    split; [tauto|]. intros [->|[?|?]]; tauto.
  - simpl. rewrite IH. do 2 f_equal. apply drop_duplicates_rows_ext.
    intros row. rewrite !elem_of_app, !elem_of_cons, elem_of_app. tauto.
Qed.

Lemma drop_duplicates_rows_NoDup (seen rows : list (list pyval)) :
  NoDup rows -> (forall row, row ∈ rows -> row ∉ seen) ->
  drop_duplicates_rows seen rows = rows.
Proof.
  revert seen. induction rows as [|r rows IH]; intros seen Hnd Hdis; simpl;
    [done|].
  inversion Hnd as [|? ? Hr Hnd']; subst.
  rewrite bool_decide_eq_false_2 by (apply Hdis; apply list_elem_of_here).
  f_equal. apply IH; [done|]. intros row Hrow.
  rewrite elem_of_cons. intros [->|Hs]; [done|].
  by apply (Hdis row); [apply list_elem_of_further|].
Qed.

(** The frame sent with the prompts of the comparisons keeps the columns,
    has no repeated row and the same rows as the selection, each at its
    first occurrence: the rows kept from a prefix of the selection are a
    prefix of the rows kept; a selection without repeated rows is
    unchanged. *)
Theorem drop_duplicates_keeps_first (f : Frame) :
  frame_columns (drop_duplicates f) = frame_columns f /\
  NoDup (frame_rows (drop_duplicates f)) /\
  (forall row, row ∈ frame_rows (drop_duplicates f) <-> row ∈ frame_rows f) /\
  sublist (frame_rows (drop_duplicates f)) (frame_rows f) /\
  (forall rows1 rows2,
      frame_rows f = rows1 ++ rows2 ->
      drop_duplicates_rows [] rows1 `prefix_of` frame_rows (drop_duplicates f)) /\
  drop_duplicates (drop_duplicates f) = drop_duplicates f.
Proof.
  destruct (drop_duplicates_rows_spec [] (frame_rows f)) as (Hnd & Hin & Hsub).
  split; [done|]. split; [done|]. split.
  { intros row. simpl. rewrite Hin. split; [by intros [? _]|].
    intros H. split; [done|apply not_elem_of_nil]. }
  split; [done|]. split.
  - intros rows1 rows2 Heq. simpl. rewrite Heq, drop_duplicates_rows_app.
    by eexists.
  - unfold drop_duplicates. simpl. f_equal.
    apply drop_duplicates_rows_NoDup; [done|].
    intros row _. apply not_elem_of_nil.
Qed.

(* ===================================================================== *)
(** * Properties of the page                                              *)
(* ===================================================================== *)

Lemma script_bind_out {A B} (m : script A) (k : A -> script B) (a : A) :
  script_result m = Ok a ->
  m ≫= k = Script (script_result (k a)) (script_out m ++ script_out (k a)).
Proof.
  destruct m as [[a'|e] o]; simpl; [|done]. intros [= ->].
  by destruct (k a).
Qed.

Lemma script_eta {A} (m : script A) (a : A) :
  script_result m = Ok a -> m = Script (Ok a) (script_out m).
Proof. destruct m as [r o]. simpl. by intros ->. Qed.

Lemma fmap_Ok {A B} (f : A -> B) (a : A) : f <$> Ok a = Ok (f a).
Proof. reflexivity. Qed.

Lemma select_columns_valid (cols : list string) (df : Table) :
  forallb (fun c => bool_decide (c ∈ record_keys)) cols = true ->
  select_columns cols df
  = Ok {| frame_columns := cols;
          frame_rows := (fun r => (fun c => record_cell c r) <$> cols) <$> df |}.
Proof.
  intros H. unfold select_columns.
  replace (List.find (fun c => negb (bool_decide (c ∈ record_keys))) cols)
    with (@None string); [done|].
  induction cols as [|c cols IH]; simpl in *; [done|].
  apply andb_true_iff in H as [Hc Hcols]. rewrite Hc. simpl. by apply IH.
Qed.

Section PageProperties.
Variable to_string : Frame -> result string.
Variable generate_content : string -> string -> string -> result (result string).
Variable session_state : gmap string string.

(** What one view shows. *)
Lemma view_cases (view_df : Table) (title : string) (color : option string)
    (frame : Frame) (prompt warning : string) :
  let v := view to_string generate_content session_state view_df title color
                (Ok frame) prompt warning in
  script_result v = Ok tt /\
  ((view_df = [] /\ script_out v = [StWarning warning]) \/
   (view_df <> [] /\
    truthy (session_state !! "GEMINI_API_KEY") = false /\
    script_out v = [PlotlyChart title color view_df;
                    StMarkdown "### KI-innsikt"; StInfo info_text]) \/
   (view_df <> [] /\
    exists key text,
      session_state !! "GEMINI_API_KEY" = Some key /\ key <> "" /\
      (script_out v
       = [PlotlyChart title color view_df; StMarkdown "### KI-innsikt";
          Eff (GenaiConfigure key); StMarkdown text;
          StCaption "KI-generert oppsummering basert på SSB-data"] \/
       exists sent,
         script_out v
         = [PlotlyChart title color view_df; StMarkdown "### KI-innsikt";
            Eff (GenaiConfigure key);
            Eff (GenerateContent "gemini-1.5-flash" sent);
            StMarkdown text;
            StCaption "KI-generert oppsummering basert på SSB-data"]))).
Proof.
  unfold view, insight_panel.
  destruct view_df as [|r0 rest]; simpl; [split; [done|by left]|].
  destruct (truthy (session_state !! "GEMINI_API_KEY")) eqn:Hkey; simpl;
    [|split; [done|right; left; done]].
  destruct (get_ai_insight_shape to_string generate_content session_state
              frame prompt) as (text & trace & -> & Hshape).
  destruct Hshape as [(Hf & _)|(key & Hk & Hne & Htrace)]; [congruence|].
  destruct Htrace as [->|[sent ->]]; simpl.
  - split; [done|]. right; right. split; [done|].
    exists key, text. split; [done|]. split; [done|]. by left.
  - split; [done|]. right; right. split; [done|].
    exists key, text. split; [done|]. split; [done|]. right. by exists sent.
Qed.

Lemma view_result (view_df : Table) (title : string) (color : option string)
    (frame : Frame) (prompt warning : string) :
  script_result (view to_string generate_content session_state view_df title
                   color (Ok frame) prompt warning) = Ok tt.
Proof. apply view_cases. Qed.

(** What is left of a view once the insight is taken out. *)
Lemma view_erased (view_df : Table) (title : string) (color : option string)
    (frame : Frame) (prompt warning : string) :
  omap erase_insight
    (script_out (view to_string generate_content session_state view_df title
                   color (Ok frame) prompt warning))
  = if df_empty view_df then [StWarning warning]
    else PlotlyChart title color view_df :: StMarkdown ""
         :: (if truthy (session_state !! "GEMINI_API_KEY")
             then [StMarkdown "";
                   StCaption "KI-generert oppsummering basert på SSB-data"]
             else [StInfo info_text]).
Proof.
  destruct (view_cases view_df title color frame prompt warning)
    as (_ & [(-> & ->)|[(Hne & Hkey & ->)|(Hne & key & text & Hk & Hkne & Hout)]]).
  - done.
  - destruct view_df; [done|]. simpl. by rewrite Hkey.
  - destruct view_df; [done|]. simpl. rewrite Hk. simpl.
    destruct (String.eqb_spec key "") as [->|_]; [done|].
    by destruct Hout as [->|[sent ->]].
Qed.

(** Charts, prompts and keys of one view. *)
Lemma view_counts (view_df : Table) (title : string) (color : option string)
    (frame : Frame) (prompt warning : string) :
  let o := script_out (view to_string generate_content session_state view_df
                         title color (Ok frame) prompt warning) in
  (length (List.filter is_prompt o) <= length (List.filter is_chart o))%nat /\
  (length (List.filter is_chart o) <= 1)%nat /\
  (length (List.filter is_chart o) + length (List.filter is_warning o) = 1)%nat /\
  (truthy (session_state !! "GEMINI_API_KEY") = false ->
   List.filter is_gemini o = [] /\
   length (List.filter is_info o) = length (List.filter is_chart o)) /\
  (forall key, Eff (GenaiConfigure key) ∈ o ->
               session_state !! "GEMINI_API_KEY" = Some key /\ key <> "").
Proof.
  intros o. pose proof (view_cases view_df title color frame prompt warning) as H.
  cbv zeta in H. fold o in H.
  destruct H
    as (_ & [(-> & Ho)|[(Hne & Hkey & Ho)|(Hne & key & text & Hk & Hkne & Ho)]]).
  - rewrite Ho. simpl.
    do 3 (split; [lia|]). split; [done|].
    intros key Hin.
    repeat (apply elem_of_cons in Hin as [[=]|Hin]); by apply elem_of_nil in Hin.
  - rewrite Ho. simpl.
    do 3 (split; [lia|]). split; [done|].
    intros key Hin.
    repeat (apply elem_of_cons in Hin as [[=]|Hin]); by apply elem_of_nil in Hin.
  - assert (Hkey : truthy (session_state !! "GEMINI_API_KEY") = true).
    { rewrite Hk. simpl. by destruct (String.eqb_spec key ""). }
    destruct Ho as [Ho|[sent Ho]]; rewrite Ho; simpl;
      (split; [lia|]); (split; [lia|]); (split; [lia|]);
      (split; [congruence|]);
      intros key' Hin;
      repeat (apply elem_of_cons in Hin as [Heq|Hin];
              [try discriminate; injection Heq as ->; by split|]);
      by apply elem_of_nil in Hin.
Qed.
End PageProperties.

Section PageLemmas.
Variable post : result Response.
Variable to_string : Frame -> result string.
Variable generate_content : string -> string -> string -> result (result string).
Variable session_state : gmap string string.
Variable now : string.

(** Each of the five views is [view] on a frame that [select_columns]
    returns: the column names of the page are columns of the table. *)
Lemma views_are_views (df : Table) :
  Forall (fun v => exists view_df title color frame prompt warning,
            v = view to_string generate_content session_state view_df title
                     color (Ok frame) prompt warning)
         (views to_string generate_content session_state df).
Proof.
  unfold views, overall_view, gender_view, age_view, male_age_view,
    female_age_view.
  rewrite !select_columns_valid by reflexivity. rewrite !fmap_Ok.
  repeat constructor; by eexists _, _, _, _, _, _.
Qed.

Lemma views_result (df : Table) :
  Forall (fun v => script_result v = Ok tt)
         (views to_string generate_content session_state df).
Proof.
  eapply Forall_impl; [apply views_are_views|].
  intros v (vdf & t & c & f & p & w & ->). apply view_result.
Qed.

(** The page when a table came back. *)
Lemma render_page_from_table (table : Table) (trace : list event) :
  table <> [] ->
  render_page_from (Io (Ok (Some table)) trace) to_string generate_content
    session_state now
  = Script (Ok tt)
      ((Eff <$> trace)
       ++ [StSubheader "Dataoversikt"; StDataframe table;
           StSubheader "Generell Arbeidsledighetstrend (2015-2024)"]
       ++ script_out (overall_view to_string generate_content session_state table)
       ++ [StSubheader "Kjønnssammenligning (2015-2024)"]
       ++ script_out (gender_view to_string generate_content session_state table)
       ++ [StSubheader "Aldersgruppesammenligning (2015-2024)"]
       ++ script_out (age_view to_string generate_content session_state table)
       ++ [StSubheader "Aldersgruppetrender etter Kjønn";
           StTabs ["Menn"; "Kvinner"]]
       ++ script_out (male_age_view to_string generate_content session_state table)
       ++ script_out (female_age_view to_string generate_content session_state table)
       ++ [StMarkdown "---"; StCaption (footer +:+ now)]).
Proof.
  intros Hne.
  pose proof (views_result table) as Hv. unfold views in Hv.
  apply Forall_cons in Hv as [H1 Hv]. apply Forall_cons in Hv as [H2 Hv].
  apply Forall_cons in Hv as [H3 Hv]. apply Forall_cons in Hv as [H4 Hv].
  apply Forall_cons in Hv as [H5 _].
  unfold render_page_from.
  rewrite (script_bind_out _ _ (Some table)) by reflexivity.
  destruct table as [|r0 rest]; [done|]. cbn [df_empty negb].
  rewrite !(script_bind_out _ _ tt) by (reflexivity || assumption).
  cbn [script_result script_out show run_io]. by f_equal.
Qed.

Lemma render_page_with_table (table : Table) (trace : list event) :
  fetch_ssb_data post = Io (Ok (Some table)) trace ->
  table <> [] ->
  render_page post to_string generate_content session_state now
  = Script (Ok tt)
      ((Eff <$> trace)
       ++ [StSubheader "Dataoversikt"; StDataframe table;
           StSubheader "Generell Arbeidsledighetstrend (2015-2024)"]
       ++ script_out (overall_view to_string generate_content session_state table)
       ++ [StSubheader "Kjønnssammenligning (2015-2024)"]
       ++ script_out (gender_view to_string generate_content session_state table)
       ++ [StSubheader "Aldersgruppesammenligning (2015-2024)"]
       ++ script_out (age_view to_string generate_content session_state table)
       ++ [StSubheader "Aldersgruppetrender etter Kjønn";
           StTabs ["Menn"; "Kvinner"]]
       ++ script_out (male_age_view to_string generate_content session_state table)
       ++ script_out (female_age_view to_string generate_content session_state table)
       ++ [StMarkdown "---"; StCaption (footer +:+ now)]).
Proof.
  intros Hfetch Hne. unfold render_page. rewrite Hfetch.
  by apply render_page_from_table.
Qed.

Lemma render_page_from_nothing (trace : list event) :
  render_page_from (Io (Ok None) trace) to_string generate_content
    session_state now
  = Script (Ok tt) ((Eff <$> trace) ++ [Eff (StError load_error)]).
Proof.
  unfold render_page_from.
  by rewrite (script_bind_out _ _ None) by reflexivity.
Qed.

Lemma render_page_without_table (trace : list event) :
  fetch_ssb_data post = Io (Ok None) trace ->
  render_page post to_string generate_content session_state now
  = Script (Ok tt) ((Eff <$> trace) ++ [Eff (StError load_error)]).
Proof.
  intros Hfetch. unfold render_page. rewrite Hfetch.
  apply render_page_from_nothing.
Qed.
End PageLemmas.

Section PageFacts.
Variable post : result Response.
Variable to_string : Frame -> result string.
Variable generate_content : string -> string -> string -> result (result string).
Variable session_state : gmap string string.
Variable now : string.

Lemma views_facts (df : Table) :
  Forall (view_facts session_state)
         (views to_string generate_content session_state df).
Proof.
  eapply Forall_impl; [apply views_are_views|].
  intros v (vdf & t & c & f & p & w & ->). apply view_counts.
Qed.
End PageFacts.

Ltac not_among_statics H :=
  repeat (apply elem_of_cons in H as [H|H]; [discriminate|]);
  by apply elem_of_nil in H.

Section PageCounts.
Variable post : result Response.
Variable to_string : Frame -> result string.
Variable generate_content : string -> string -> string -> result (result string).
Variable session_state : gmap string string.
Variable now : string.

(** The facts of the five views, added up over the page. *)
Lemma page_counts (table : Table) :
  fetch_ssb_data post = Io (Ok (Some table)) [HttpPost url payload_query] ->
  table <> [] ->
  let o := script_out (render_page post to_string generate_content
                         session_state now) in
  (length (List.filter is_prompt o) <= length (List.filter is_chart o))%nat /\
  (length (List.filter is_chart o) <= 5)%nat /\
  (length (List.filter is_chart o) + length (List.filter is_warning o) = 5)%nat /\
  (truthy (session_state !! "GEMINI_API_KEY") = false ->
   List.filter is_gemini o = [] /\
   length (List.filter is_info o) = length (List.filter is_chart o)) /\
  (forall key, Eff (GenaiConfigure key) ∈ o ->
               session_state !! "GEMINI_API_KEY" = Some key /\ key <> "").
Proof.
  intros Hfetch Hne o. subst o.
  rewrite (render_page_with_table _ _ _ _ _ _ _ Hfetch Hne).
  cbn [script_out fmap list_fmap].
  pose proof (views_facts to_string generate_content session_state table) as Hv.
  unfold views in Hv.
  apply Forall_cons in Hv as [(P1 & C1 & W1 & N1 & K1) Hv].
  apply Forall_cons in Hv as [(P2 & C2 & W2 & N2 & K2) Hv].
  apply Forall_cons in Hv as [(P3 & C3 & W3 & N3 & K3) Hv].
  apply Forall_cons in Hv as [(P4 & C4 & W4 & N4 & K4) Hv].
  apply Forall_cons in Hv as [(P5 & C5 & W5 & N5 & K5) _].
  rewrite !List.filter_app, !length_app. cbn [List.filter is_prompt is_chart
    is_warning is_info is_gemini length app].
  split; [lia|]. split; [lia|]. split; [lia|]. split.
  - intros Hkey.
    destruct (N1 Hkey) as [G1 I1]. destruct (N2 Hkey) as [G2 I2].
    destruct (N3 Hkey) as [G3 I3]. destruct (N4 Hkey) as [G4 I4].
    destruct (N5 Hkey) as [G5 I5].
    rewrite G1, G2, G3, G4, G5. cbn [app]. split; [done|lia].
  - intros key Hin.
    repeat match type of Hin with
           | _ ∈ _ :: _ =>
               apply elem_of_cons in Hin as [Hin|Hin]; [discriminate|]
           | _ ∈ _ ++ _ =>
               apply elem_of_app in Hin as [Hin|Hin];
               [first [ by apply K1 | by apply K2 | by apply K3
                      | by apply K4 | by apply K5 ]|]
           end.
    by apply elem_of_nil in Hin.
Qed.

Lemma page_counts_without_table (e : exn) :
  fetch_ssb_data post
  = Io (Ok None) [HttpPost url payload_query; StError (error_prefix +:+ str e)] ->
  script_out (render_page post to_string generate_content session_state now)
  = [Eff (HttpPost url payload_query); Eff (StError (error_prefix +:+ str e));
     Eff (StError load_error)].
Proof.
  intros Hfetch. by rewrite (render_page_without_table _ _ _ _ _ _ Hfetch).
Qed.
End PageCounts.

(** X10.  When the call of [fetch_ssb_data] returns [None] the page is what
    that call shows and the closing error, and nothing else: no heading,
    chart or insight, and the script ends normally.  On a run that finds no
    entry in the cache that is the POST and the error of the fetch; on a run
    that finds the entry there is no POST, and the error shown is the one
    stored with the entry. *)
Theorem page_without_data (calls : list (result Response * bool))
    (post : result Response) (held : bool)
    (to_string : Frame -> result string)
    (generate_content : string -> string -> string -> result (result string))
    (session_state : gmap string string) (now : string) :
  io_result (fetch_ssb_data_cached post held (cache_after calls)).1 = Ok None ->
  exists e,
    (render_page_cached post held (cache_after calls) to_string
       generate_content session_state now).1
    = Script (Ok tt)
        ((if cache_hit held (cache_after calls) then []
          else [Eff (HttpPost url payload_query)])
         ++ [Eff (StError (error_prefix +:+ str e));
             Eff (StError load_error)]) /\
    (cache_hit held (cache_after calls) = true ->
     exists entry,
       cache_after calls = Some entry /\
       cached_elements entry = [StError (error_prefix +:+ str e)]).
Proof.
  intros H. unfold render_page_cached. cbn [fst].
  destruct (fetch_ssb_data_cached_cases calls post held)
    as [(table & _ & Hf)|(e & Hf)]; rewrite Hf in H; [discriminate|].
  exists e. rewrite Hf, render_page_from_nothing. split.
  - by destruct (cache_hit held (cache_after calls)).
  - intros Hhit.
    destruct (fetch_ssb_data_cached_hit post _ _ Hhit) as (entry & Hc & Hcall).
    exists entry. split; [done|].
    rewrite Hcall, Hhit in Hf. by injection Hf as _ ->.
Qed.

Lemma page_within_the_hour_after_status_404 :
  exists e,
    (render_page_cached (Ok (ok_response full_body)) true
       (cache_after
          [(Ok {| status_code := 404; reason := "404 Client Error: Not Found";
                  json := Ok labelled_body |}, false)])
       (fun _ => Ok "T") (fun _ _ _ => Ok (Ok "I"))
       {[ "GEMINI_API_KEY" := "k" ]} "2025-01-01 12:00").1
    = Script (Ok tt)
        ((if cache_hit true
               (cache_after
                  [(Ok {| status_code := 404;
                          reason := "404 Client Error: Not Found";
                          json := Ok labelled_body |}, false)])
          then [] else [Eff (HttpPost url payload_query)])
         ++ [Eff (StError (error_prefix +:+ str e));
             Eff (StError load_error)]) /\
    (cache_hit true
       (cache_after
          [(Ok {| status_code := 404; reason := "404 Client Error: Not Found";
                  json := Ok labelled_body |}, false)]) = true ->
     exists entry,
       cache_after
         [(Ok {| status_code := 404; reason := "404 Client Error: Not Found";
                 json := Ok labelled_body |}, false)] = Some entry /\
       cached_elements entry = [StError (error_prefix +:+ str e)]).
Proof.
  apply (page_without_data
           [(Ok {| status_code := 404; reason := "404 Client Error: Not Found";
                   json := Ok labelled_body |}, false)]
           (Ok (ok_response full_body)) true).
  vm_compute. reflexivity.
Defined.

Example page_after_status_404 :
  render_page_cached
    (Ok {| status_code := 404; reason := "404 Client Error: Not Found";
           json := Ok labelled_body |}) false (cache_after [])
    (fun _ => Ok "T") (fun _ _ _ => Ok (Ok "I"))
    {[ "GEMINI_API_KEY" := "k" ]} "2025-01-01 12:00"
  = (Script (Ok tt)
       [Eff (HttpPost url payload_query);
        Eff (StError "Feil ved henting av data fra SSB: 404 Client Error: Not Found");
        Eff (StError load_error)],
     Some {| cached_value := None;
             cached_elements :=
               [StError "Feil ved henting av data fra SSB: 404 Client Error: Not Found"] |}).
Proof. vm_compute. reflexivity. Qed.

(** X11.  Without a stored key no page contacts Gemini, and the hint to enter a
    key stands beside every chart shown. *)
Theorem page_without_key (post : result Response)
    (to_string : Frame -> result string)
    (generate_content : string -> string -> string -> result (result string))
    (session_state : gmap string string) (now : string) :
  session_state !! "GEMINI_API_KEY" = None \/
  session_state !! "GEMINI_API_KEY" = Some "" ->
  let o := script_out (render_page post to_string generate_content
                         session_state now) in
  List.filter is_gemini o = [] /\
  length (List.filter is_info o) = length (List.filter is_chart o).
Proof.
  intros Hkey o.
  assert (Ht : truthy (session_state !! "GEMINI_API_KEY") = false)
    by (destruct Hkey as [-> | ->]; reflexivity).
  destruct (fetch_ssb_data_cases post) as [(table & Hne & Hf)|(e & Hf)].
  - by apply (page_counts post to_string generate_content session_state now
                table Hf Hne).
  - subst o. by rewrite (page_counts_without_table _ _ _ _ _ _ Hf).
Qed.

Lemma full_page_without_key :
  let o := script_out (render_page (Ok (ok_response full_body))
                         (fun _ => Ok "T") (fun _ _ _ => Ok (Ok "I"))
                         ∅ "2025-01-01 12:00") in
  List.filter is_gemini o = [] /\
  length (List.filter is_info o) = length (List.filter is_chart o).
Proof.
  apply (page_without_key (Ok (ok_response full_body))).
  left. reflexivity.
Defined.

(** X12.  On every page at most one prompt is sent per chart shown and at most
    five charts are shown; every configuration of the client carries the
    stored key, which is not empty; and when a table came back each of the
    five views shows either its chart or its warning. *)
Theorem page_prompts_and_charts (post : result Response)
    (to_string : Frame -> result string)
    (generate_content : string -> string -> string -> result (result string))
    (session_state : gmap string string) (now : string) :
  let o := script_out (render_page post to_string generate_content
                         session_state now) in
  (length (List.filter is_prompt o) <= length (List.filter is_chart o))%nat /\
  (length (List.filter is_chart o) <= 5)%nat /\
  (forall key, Eff (GenaiConfigure key) ∈ o ->
               session_state !! "GEMINI_API_KEY" = Some key /\ key <> "") /\
  (forall table,
      io_result (fetch_ssb_data post) = Ok (Some table) ->
      (length (List.filter is_chart o) + length (List.filter is_warning o)
       = 5)%nat).
Proof.
  intros o.
  destruct (fetch_ssb_data_cases post) as [(table & Hne & Hf)|(e & Hf)].
  - destruct (page_counts post to_string generate_content session_state now
                table Hf Hne) as (HP & HC & HW & _ & HK).
    split; [done|]. split; [done|]. split; [done|]. by intros _ _.
  - subst o. rewrite (page_counts_without_table _ _ _ _ _ _ Hf). simpl.
    split; [lia|]. split; [lia|]. split.
    + intros key Hin. not_among_statics Hin.
    + intros table Ht. by rewrite Hf in Ht.
Qed.

Lemma full_page_charts :
  let o := script_out (render_page (Ok (ok_response full_body))
                         (fun _ => Ok "T") (fun _ _ _ => Ok (Ok "I"))
                         {[ "GEMINI_API_KEY" := "k" ]} "2025-01-01 12:00") in
  (length (List.filter is_chart o) + length (List.filter is_warning o) = 5)%nat.
Proof.
  apply (page_prompts_and_charts (Ok (ok_response full_body))
           (fun _ => Ok "T") (fun _ _ _ => Ok (Ok "I"))
           {[ "GEMINI_API_KEY" := "k" ]} "2025-01-01 12:00") with full_table.
  vm_compute. reflexivity.
Defined.

Section TwoClients.
Variable post : result Response.
Variables to_string1 to_string2 : Frame -> result string.
Variables generate_content1 generate_content2 :
  string -> string -> string -> result (result string).
Variable session_state : gmap string string.
Variable now : string.

Lemma views_erased (df : Table) :
  Forall2 (fun v1 v2 => omap erase_insight (script_out v1)
                        = omap erase_insight (script_out v2))
    (views to_string1 generate_content1 session_state df)
    (views to_string2 generate_content2 session_state df).
Proof.
  unfold views, overall_view, gender_view, age_view, male_age_view,
    female_age_view.
  rewrite !select_columns_valid by reflexivity. rewrite !fmap_Ok.
  repeat constructor; by rewrite !view_erased.
Qed.
End TwoClients.

(** X13.  The script ends normally on every input, and what the frame printer and
    Gemini do changes nothing on the page but the insight texts and the
    Gemini events: headings, tables, charts, hints, warnings and errors are
    the same, in the same order, for any two clients. *)
Theorem page_layout_is_independent_of_gemini (post : result Response)
    (to_string1 to_string2 : Frame -> result string)
    (generate_content1 generate_content2 :
       string -> string -> string -> result (result string))
    (session_state : gmap string string) (now : string) :
  script_result (render_page post to_string1 generate_content1
                   session_state now) = Ok tt /\
  omap erase_insight
    (script_out (render_page post to_string1 generate_content1
                   session_state now))
  = omap erase_insight
      (script_out (render_page post to_string2 generate_content2
                     session_state now)).
Proof.
  destruct (fetch_ssb_data_cases post) as [(table & Hne & Hf)|(e & Hf)].
  - rewrite !(render_page_with_table _ _ _ _ _ _ _ Hf Hne).
    split; [done|]. cbn [script_out].
    pose proof (views_erased to_string1 to_string2 generate_content1
                  generate_content2 session_state table) as Hv.
    unfold views in Hv.
    apply Forall2_cons in Hv as [E1 Hv]. apply Forall2_cons in Hv as [E2 Hv].
    apply Forall2_cons in Hv as [E3 Hv]. apply Forall2_cons in Hv as [E4 Hv].
    apply Forall2_cons in Hv as [E5 _].
    rewrite !omap_app. by rewrite E1, E2, E3, E4, E5.
  - by rewrite !(render_page_without_table _ _ _ _ _ _ Hf).
Qed.

Lemma none_of_the_age_groups (mask : Record_ -> bool) (table : Table) :
  (forall row, isin (age_group row) all_age_groups = false -> mask row = false) ->
  Forall (fun row => isin (age_group row) all_age_groups = false) table ->
  boolean_index mask table = [].
Proof.
  intros Hmask Hall. unfold boolean_index.
  induction Hall as [|row table Hrow _ IH]; simpl; [done|].
  by rewrite (Hmask row Hrow).
Qed.

Lemma masks_need_the_age_labels (row : Record_) :
  isin (age_group row) all_age_groups = false ->
  overall_mask row = false /\ gender_mask row = false /\
  age_mask row = false /\ male_age_mask row = false /\
  female_age_mask row = false.
Proof.
  unfold overall_mask, gender_mask, age_mask, male_age_mask, female_age_mask,
    isin, eq_str, all_age_groups, age_groups.
  destruct (age_group row) as [| |s]; intros H;
    rewrite ?andb_false_r; [done..|].
  apply bool_decide_eq_false in H.
  assert (String.eqb s "15-74 år" = false) as ->.
  { apply String.eqb_neq. intros ->. apply H. apply list_elem_of_here. }
  assert (bool_decide (s ∈ ["15-24 år"; "25-54 år"; "55-74 år"]) = false) as ->.
  { apply bool_decide_eq_false. intros Hs. apply H.
    by apply list_elem_of_further. }
  by rewrite !andb_false_r.
Qed.

(** X14.  The views match the age labels of the API and nothing else: when no row
    of the table the call of [fetch_ssb_data] returns carries one of the four
    texts "15-74 år", "15-24 år", "25-54 år", "55-74 år", the page shows the
    raw table and the five warnings, no chart, and contacts Gemini for
    nothing, key or no key.  The POST stands before them on a run that finds
    no entry in the cache, and is absent on a run that finds the entry. *)
Theorem page_without_age_labels (calls : list (result Response * bool))
    (post : result Response) (held : bool)
    (to_string : Frame -> result string)
    (generate_content : string -> string -> string -> result (result string))
    (session_state : gmap string string) (now : string) (table : Table) :
  io_result (fetch_ssb_data_cached post held (cache_after calls)).1
  = Ok (Some table) ->
  Forall (fun row => isin (age_group row) all_age_groups = false) table ->
  script_out (render_page_cached post held (cache_after calls) to_string
                generate_content session_state now).1
  = (if cache_hit held (cache_after calls) then []
     else [Eff (HttpPost url payload_query)])
    ++ [StSubheader "Dataoversikt"; StDataframe table;
        StSubheader "Generell Arbeidsledighetstrend (2015-2024)";
        StWarning "Ingen data funnet for den generelle trenden (Begge kjønn, 15-74 år).";
        StSubheader "Kjønnssammenligning (2015-2024)";
        StWarning "Ingen data funnet for kjønnssammenligning (Menn/Kvinner, 15-74 år).";
        StSubheader "Aldersgruppesammenligning (2015-2024)";
        StWarning "Ingen data funnet for aldersgruppesammenligning (Begge kjønn, ulike aldersgrupper).";
        StSubheader "Aldersgruppetrender etter Kjønn";
        StTabs ["Menn"; "Kvinner"];
        StWarning "Ingen data funnet for menn fordelt på aldersgrupper.";
        StWarning "Ingen data funnet for kvinner fordelt på aldersgrupper.";
        StMarkdown "---"; StCaption (footer +:+ now)].
Proof.
  intros Hres Hall. unfold render_page_cached. cbn [fst].
  destruct (fetch_ssb_data_cached_cases calls post held)
    as [(table' & Hne & Hf)|(e & Hf)]; rewrite Hf in Hres; [|discriminate].
  injection Hres as ->. rewrite Hf.
  rewrite (render_page_from_table _ _ _ _ _ _ Hne).
  unfold overall_view, gender_view, age_view, male_age_view, female_age_view.
  rewrite !(none_of_the_age_groups _ table) by
    (done || (intros row Hrow; by apply masks_need_the_age_labels)).
  by destruct (cache_hit held (cache_after calls)).
Qed.

Lemma scenario_page_shows_five_warnings :
  script_out (render_page_cached
                (Ok {| status_code := 404;
                       reason := "404 Client Error: Not Found";
                       json := Ok labelled_body |}) true
                (cache_after [(Ok (ok_response scenario_body), false)])
                (fun _ => Ok "T") (fun _ _ _ => Ok (Ok "I"))
                {[ "GEMINI_API_KEY" := "k" ]} "2025-01-01 12:00").1
  = (if cache_hit true
          (cache_after [(Ok (ok_response scenario_body), false)])
     then [] else [Eff (HttpPost url payload_query)])
    ++ [StSubheader "Dataoversikt"; StDataframe (table_of scenario_body);
        StSubheader "Generell Arbeidsledighetstrend (2015-2024)";
        StWarning "Ingen data funnet for den generelle trenden (Begge kjønn, 15-74 år).";
        StSubheader "Kjønnssammenligning (2015-2024)";
        StWarning "Ingen data funnet for kjønnssammenligning (Menn/Kvinner, 15-74 år).";
        StSubheader "Aldersgruppesammenligning (2015-2024)";
        StWarning "Ingen data funnet for aldersgruppesammenligning (Begge kjønn, ulike aldersgrupper).";
        StSubheader "Aldersgruppetrender etter Kjønn";
        StTabs ["Menn"; "Kvinner"];
        StWarning "Ingen data funnet for menn fordelt på aldersgrupper.";
        StWarning "Ingen data funnet for kvinner fordelt på aldersgrupper.";
        StMarkdown "---"; StCaption (footer +:+ "2025-01-01 12:00")].
Proof.
  apply (page_without_age_labels
           [(Ok (ok_response scenario_body), false)]
           (Ok {| status_code := 404; reason := "404 Client Error: Not Found";
                  json := Ok labelled_body |}) true).
  - vm_compute. reflexivity.
  - vm_compute. repeat constructor.
Defined.

(* ===================================================================== *)
(** * Properties of the key                                               *)
(* ===================================================================== *)

Lemma resolve_api_key_lookup (environ : gmap string string)
    (api_key_input : string) (session_state : gmap string string) :
  (resolve_api_key environ api_key_input session_state).1 !! "GEMINI_API_KEY"
  = if truthy (environ !! "GEMINI_API_KEY") then environ !! "GEMINI_API_KEY"
    else if negb (String.eqb api_key_input "") then Some api_key_input
    else session_state !! "GEMINI_API_KEY".
Proof.
  assert (Hw : forall (v : string) (m : gmap string string),
             <[api_key_widget := v]> m !! "GEMINI_API_KEY"
             = m !! "GEMINI_API_KEY")
    by (intros v m; by apply lookup_insert_ne).
  unfold resolve_api_key.
  destruct (environ !! "GEMINI_API_KEY") as [k|]; simpl.
  - destruct (String.eqb k ""); simpl; [|by rewrite lookup_insert_eq].
    destruct (String.eqb api_key_input ""); simpl;
      [by rewrite Hw|by rewrite lookup_insert_eq].
  - destruct (String.eqb api_key_input ""); simpl;
      [by rewrite Hw|by rewrite lookup_insert_eq].
Qed.

(** X15.  A key of the environment wins over the field, which is then not even
    shown, and the session changes in the entry [GEMINI_API_KEY] only; the
    field is used when the environment has none, and the session then holds
    the text of the field under the field's own name
    [api_key_input_sidebar] as well; when neither gives a key the session
    gains that entry of the field (the empty text) and nothing else, and the
    sidebar warns that no insight will be available, also when the session
    still holds a key from an earlier run.  So a key is stored afterwards
    exactly when the environment, the field or the earlier session had
    one. *)
Theorem resolve_api_key_precedence (environ : gmap string string)
    (api_key_input : string) (session_state : gmap string string) :
  let session_state' :=
    (resolve_api_key environ api_key_input session_state).1 in
  let shown := (resolve_api_key environ api_key_input session_state).2 in
  truthy (session_state' !! "GEMINI_API_KEY")
  = truthy (environ !! "GEMINI_API_KEY")
    || negb (String.eqb api_key_input "")
    || truthy (session_state !! "GEMINI_API_KEY") /\
  (truthy (environ !! "GEMINI_API_KEY") = true ->
   session_state' !! "GEMINI_API_KEY" = environ !! "GEMINI_API_KEY" /\
   (forall name, name <> "GEMINI_API_KEY" ->
      session_state' !! name = session_state !! name) /\
   shown = [SidebarSuccess "✅ API-nøkkel lastet fra .env-fil"]) /\
  (truthy (environ !! "GEMINI_API_KEY") = false -> api_key_input <> "" ->
   session_state'
   = <["GEMINI_API_KEY" := api_key_input]>
       (<["api_key_input_sidebar" := api_key_input]> session_state) /\
   shown = [SidebarTextInput "Skriv inn Google Gemini API-nøkkel";
            SidebarSuccess "✅ API-nøkkel mottatt"]) /\
  (truthy (environ !! "GEMINI_API_KEY") = false -> api_key_input = "" ->
   session_state' = <["api_key_input_sidebar" := ""]> session_state /\
   session_state' !! "GEMINI_API_KEY" = session_state !! "GEMINI_API_KEY" /\
   shown = [SidebarTextInput "Skriv inn Google Gemini API-nøkkel";
            SidebarWarning "⚠️ Ingen API-nøkkel funnet i .env-fil eller oppgitt. KI-innsikt vil ikke være tilgjengelig."]).
Proof.
  intros ss' shown. subst ss' shown.
  rewrite resolve_api_key_lookup.
  assert (Hw : forall (v : string) (m : gmap string string),
             <[api_key_widget := v]> m !! "GEMINI_API_KEY"
             = m !! "GEMINI_API_KEY")
    by (intros v m; by apply lookup_insert_ne).
  unfold resolve_api_key.
  destruct (environ !! "GEMINI_API_KEY") as [k|]; simpl.
  - destruct (String.eqb_spec k "") as [->|Hk]; simpl.
    + destruct (String.eqb_spec api_key_input "") as [->|Hi]; simpl.
      * split; [done|]. split; [done|]. split; [done|].
        intros _ _. split; [done|]. split; done.
      * split; [by destruct (String.eqb_spec api_key_input "")|].
        split; [done|]. split; [by intros _ _|]. by intros _ ?.
    + split; [by destruct (String.eqb_spec k "")|].
      split; [|split; by intros [=]].
      intros _. split; [done|]. split; [|done].
      intros name Hname. by apply lookup_insert_ne.
  - destruct (String.eqb_spec api_key_input "") as [->|Hi]; simpl.
    + split; [done|]. split; [done|]. split; [done|].
      intros _ _. split; [done|]. split; done.
    + split; [by destruct (String.eqb_spec api_key_input "")|].
      split; [done|]. split; [by intros _ _|]. by intros _ ?.
Qed.

Lemma stale_key_survives_the_warning :
  (resolve_api_key ∅ "" {[ "GEMINI_API_KEY" := "old" ]}).1
  = <["api_key_input_sidebar" := ""]> {[ "GEMINI_API_KEY" := "old" ]} /\
  (resolve_api_key ∅ "" {[ "GEMINI_API_KEY" := "old" ]}).1
    !! "GEMINI_API_KEY"
  = ({[ "GEMINI_API_KEY" := "old" ]} : gmap string string)
      !! "GEMINI_API_KEY" /\
  (resolve_api_key ∅ "" {[ "GEMINI_API_KEY" := "old" ]}).2
  = [SidebarTextInput "Skriv inn Google Gemini API-nøkkel";
     SidebarWarning "⚠️ Ingen API-nøkkel funnet i .env-fil eller oppgitt. KI-innsikt vil ikke være tilgjengelig."].
Proof.
  apply (resolve_api_key_precedence ∅ "" {[ "GEMINI_API_KEY" := "old" ]});
    reflexivity.
Defined.

(** X16.  The sidebar and the page together: every configuration of the Gemini
    client during the render carries the key the sidebar resolved, that of
    the environment when it has one, else the text of the field when it has
    one, else the key the session held before. *)
Theorem page_uses_the_resolved_key (environ : gmap string string)
    (api_key_input : string) (session_state : gmap string string)
    (post : result Response) (to_string : Frame -> result string)
    (generate_content : string -> string -> string -> result (result string))
    (now key : string) :
  Eff (GenaiConfigure key)
    ∈ script_out (render_page post to_string generate_content
                    (resolve_api_key environ api_key_input session_state).1
                    now) ->
  key <> "" /\
  Some key
  = if truthy (environ !! "GEMINI_API_KEY") then environ !! "GEMINI_API_KEY"
    else if negb (String.eqb api_key_input "") then Some api_key_input
    else session_state !! "GEMINI_API_KEY".
Proof.
  intros Hin. rewrite <- resolve_api_key_lookup.
  destruct (fetch_ssb_data_cases post) as [(table & Hne & Hf)|(e & Hf)].
  - destruct (page_counts post to_string generate_content
                (resolve_api_key environ api_key_input session_state).1 now
                table Hf Hne) as (_ & _ & _ & _ & HK).
    by destruct (HK key Hin) as [-> ?].
  - rewrite (page_counts_without_table _ _ _ _ _ _ Hf) in Hin.
    not_among_statics Hin.
Qed.

Lemma full_page_uses_the_environment_key :
  "env-key" <> "" /\
  Some "env-key"
  = if truthy (({[ "GEMINI_API_KEY" := "env-key" ]} : gmap string string)
                 !! "GEMINI_API_KEY")
    then ({[ "GEMINI_API_KEY" := "env-key" ]} : gmap string string)
           !! "GEMINI_API_KEY"
    else if negb (String.eqb "typed" "") then Some "typed"
    else ({[ "GEMINI_API_KEY" := "old" ]} : gmap string string)
           !! "GEMINI_API_KEY".
Proof.
  apply (page_uses_the_resolved_key {[ "GEMINI_API_KEY" := "env-key" ]}
           "typed" {[ "GEMINI_API_KEY" := "old" ]}
           (Ok (ok_response full_body))
           (fun _ => Ok "T") (fun _ _ _ => Ok (Ok "I")) "2025-01-01 12:00").
  vm_compute. do 6 right. left.
Defined.

Lemma repeated_rows_are_dropped :
  drop_duplicates_rows [] [[PInt 2015; PStr "Menn"]; [PInt 2016; PStr "Menn"]]
  `prefix_of`
  frame_rows (drop_duplicates
                {| frame_columns := [col_year; col_gender];
                   frame_rows := [[PInt 2015; PStr "Menn"];
                                  [PInt 2016; PStr "Menn"];
                                  [PInt 2015; PStr "Menn"];
                                  [PInt 2017; PStr "Menn"]] |}).
Proof.
  apply (drop_duplicates_keeps_first
           {| frame_columns := [col_year; col_gender];
              frame_rows := [[PInt 2015; PStr "Menn"];
                             [PInt 2016; PStr "Menn"];
                             [PInt 2015; PStr "Menn"];
                             [PInt 2017; PStr "Menn"]] |})
    with [[PInt 2015; PStr "Menn"]; [PInt 2017; PStr "Menn"]].
  reflexivity.
Defined.
